(** * MiiA.bit serial driver: protocol codec and device state

    A shallow embedding of [miia_bit_definitions.py] (the protocol table)
    and of the class [MiiABit] of [miipy_miiabit.py] (the device
    controller), followed by the properties of the driver.

    Python integers are unbounded, so numeric arguments are [Z].  A
    [bytes] object is a list of [Byte.byte]; the dictionaries of the
    source are [gmap string Z].  Methods mutate [self] and may raise, so
    a method is a function from the object to an outcome and the object
    as the call leaves it: a raise keeps every mutation made before it. *)

From Stdlib Require Import ZArith QArith Lia.
From Stdlib Require Strings.Byte.
From stdpp Require Import gmap strings list.

Local Open Scope Z_scope.

(** ** Python values used by the driver *)

Definition bytes := list Byte.byte.

Definition Z_of_byte (b : Byte.byte) : Z := Z.of_N (Byte.to_N b).

Inductive exn :=
| AssertionError (msg : string)
| StructError (msg : string)
| KeyError (key : string)
| IndexError (msg : string).

Inductive outcome (A : Type) :=
| Return (a : A)
| Raise (e : exn).
Arguments Return {A} a.
Arguments Raise {A} e.

(** [range(start, stop)] with the default step 1. *)
Record range := { start : Z; stop : Z }.

(** [x in range(start, stop)] for an integer [x]. *)
Definition in_range (x : Z) (r : range) : bool :=
  (start r <=? x) && (x <? stop r).

(** [x in d] for a dictionary [d]: is [x] a key. *)
Definition in_dict (k : string) (d : gmap string Z) : bool :=
  bool_decide (is_Some (d !! k)).

(** [x in l] for a list of strings. *)
Definition in_list (k : string) (l : list string) : bool :=
  bool_decide (k ∈ l).

(** ** struct: the two formats the driver uses

    [struct.pack("!1B", item)] gives the one byte [item] when
    [0 <= item <= 255] and raises [struct.error] otherwise: nothing is
    masked or wrapped. *)
Definition struct_pack_1B (item : Z) : outcome bytes :=
  if (0 <=? item) && (item <=? 255) then
    match Byte.of_N (Z.to_N item) with
    | Some b => Return [b]
    | None => Raise (StructError "ubyte format requires 0 <= number <= 255")
    end
  else Raise (StructError "ubyte format requires 0 <= number <= 255").

(** [struct.unpack("!6B", data)] gives the six byte values as integers
    and raises [struct.error] when [data] is not exactly six bytes long. *)
Definition struct_unpack_6B (data : bytes) : outcome (list Z) :=
  if (length data =? 6)%nat then Return (map Z_of_byte data)
  else Raise (StructError "unpack requires a buffer of 6 bytes").

(** ** miia_bit_definitions.py *)

Definition BAUD_RATE : Z := 57600.
Definition TIMEOUT : Q := (1 # 10)%Q.

Definition miia_bit_opcodes : gmap string Z :=
  <["buzzer" := 201]> (<["motor_a" := 202]> (<["motor_b" := 203]>
  (<["rgb_led_r" := 204]> (<["rgb_led_g" := 205]> (<["rgb_led_b" := 206]>
  (<["servo" := 208]> ∅)))))).

Definition miia_bit_motors : list string := ["a"; "b"].

Definition miia_bit_motor_speed_range : range := {| start := 0; stop := 101 |}.

Definition miia_bit_motor_directions : gmap string Z :=
  <["reverse" := 1]> (<["forward" := 0]> ∅).

Definition miia_bit_buzzer_states : gmap string Z :=
  <["on" := 1]> (<["off" := 0]> ∅).

Definition miia_bit_servo_range : range := {| start := 0; stop := 101 |}.

Definition miia_bit_calibration_range : range := {| start := -50; stop := 51 |}.

Definition miia_bit_rgb_led_range : range := {| start := 0; stop := 101 |}.

(** ** The serial port

    [serial.Serial] is the byte channel.  The port records every
    [write] call, in order, with the bytes object it was given; [rx]
    holds the bytes that reach the host before the read timeout.  The
    constructor opens the port and no public method closes it, so the
    port is open throughout and a [write] is always taken. *)
Record Serial := {
  port : string;
  baudrate : Z;
  port_timeout : Q;
  written : list bytes;
  rx : bytes
}.

Definition Serial_write (data : bytes) (s : Serial) : Serial :=
  {| port := port s; baudrate := baudrate s; port_timeout := port_timeout s;
     written := written s ++ [data]; rx := rx s |}.

(** [read(size)] returns at most [size] bytes: fewer when the timeout
    elapses first.  The bytes returned leave the receive buffer. *)
Definition Serial_read (size : nat) (s : Serial) : bytes * Serial :=
  (take size (rx s),
   {| port := port s; baudrate := baudrate s; port_timeout := port_timeout s;
      written := written s; rx := drop size (rx s) |}).

(** The byte stream on the wire, as integers. *)
Definition wire (s : Serial) : list Z := map Z_of_byte (concat (written s)).

(** ** miipy_miiabit.py: class MiiABit *)

Record MiiABit := {
  device : string;
  baud_rate : Z;
  timeout : Q;
  serial_connection : Serial;
  motor_cal_values : gmap string Z;
  distance_sensor : option Z;
  input_button_state : option Z
}.

(** A method body: the object in, the outcome and the object out. *)
Definition Py (A : Type) : Type := MiiABit -> outcome A * MiiABit.

Definition ret {A} (a : A) : Py A := fun self => (Return a, self).

Definition raise {A} (e : exn) : Py A := fun self => (Raise e, self).

Definition bind {A B} (m : Py A) (k : A -> Py B) : Py B :=
  fun self =>
    match m self with
    | (Return a, self') => k a self'
    | (Raise e, self') => (Raise e, self')
    end.

Declare Scope py_scope.
Delimit Scope py_scope with py.
Notation "x <- c1 ;; c2" := (bind c1 (fun x => c2))
  (at level 100, c1 at next level, c2 at level 200, right associativity) : py_scope.
Notation "c1 ;;; c2" := (bind c1 (fun _ => c2))
  (at level 100, c2 at level 200, right associativity) : py_scope.

(** A pure computation that may raise, run inside a method. *)
Definition lift {A} (o : outcome A) : Py A :=
  fun self => (o, self).

(** [assert cond, msg] *)
Definition py_assert (cond : bool) (msg : string) : Py unit :=
  if cond then ret tt else raise (AssertionError msg).

(** [d[k]] for a dictionary [d] *)
Definition getitem (d : gmap string Z) (k : string) : outcome Z :=
  match d !! k with
  | Some v => Return v
  | None => Raise (KeyError k)
  end.

(** [t[i]] for a tuple [t] *)
Definition tuple_getitem (t : list Z) (i : nat) : outcome Z :=
  match t !! i with
  | Some v => Return v
  | None => Raise (IndexError "tuple index out of range")
  end.

(** [self.motor_cal_values[motor]] *)
Definition motor_cal_values_getitem (motor : string) : Py Z :=
  fun self => (getitem (motor_cal_values self) motor, self).

Definition set_serial (s : Serial) (self : MiiABit) : MiiABit :=
  {| device := device self; baud_rate := baud_rate self; timeout := timeout self;
     serial_connection := s;
     motor_cal_values := motor_cal_values self;
     distance_sensor := distance_sensor self;
     input_button_state := input_button_state self |}.

Definition set_motor_cal_values (m : gmap string Z) (self : MiiABit) : MiiABit :=
  {| device := device self; baud_rate := baud_rate self; timeout := timeout self;
     serial_connection := serial_connection self;
     motor_cal_values := m;
     distance_sensor := distance_sensor self;
     input_button_state := input_button_state self |}.

Definition set_input_button_state (v : option Z) (self : MiiABit) : MiiABit :=
  {| device := device self; baud_rate := baud_rate self; timeout := timeout self;
     serial_connection := serial_connection self;
     motor_cal_values := motor_cal_values self;
     distance_sensor := distance_sensor self;
     input_button_state := v |}.

Definition set_distance_sensor (v : option Z) (self : MiiABit) : MiiABit :=
  {| device := device self; baud_rate := baud_rate self; timeout := timeout self;
     serial_connection := serial_connection self;
     motor_cal_values := motor_cal_values self;
     distance_sensor := v;
     input_button_state := input_button_state self |}.

(** [self.serial_connection.write(item)] *)
Definition serial_write (item : bytes) : Py unit :=
  fun self => (Return tt, set_serial (Serial_write item (serial_connection self)) self).

(** [self.serial_connection.read(size=n)] *)
Definition serial_read (size : nat) : Py bytes :=
  fun self =>
    let '(data, s) := Serial_read size (serial_connection self) in
    (Return data, set_serial s self).

Local Open Scope py_scope.

(** [_pack_data_array], called with the items as arguments: the loop
    appends one packed item per round and stops at the first item that
    does not pack. *)
Fixpoint pack_loop (data : list Z) (packed_data_array : list bytes)
  : outcome (list bytes) :=
  match data with
  | [] => Return packed_data_array
  | item :: data' =>
      match struct_pack_1B item with
      | Return b => pack_loop data' (packed_data_array ++ [b])
      | Raise e => Raise e
      end
  end.

Definition _pack_data_array (data : list Z) : outcome (list bytes) :=
  pack_loop data [].

(** [_send_data(data_array)]: one [write] call per item. *)
Fixpoint _send_data (data_array : list bytes) : Py unit :=
  match data_array with
  | [] => ret tt
  | item :: data_array' => serial_write item ;;; _send_data data_array'
  end.

Definition _connection_ready : Py unit :=
  data <- lift (_pack_data_array [0]) ;;
  _send_data data.

(** [_receive_data()]: the read happens first, so a frame that does not
    unpack has already left the receive buffer when the error is raised. *)
Definition _receive_data : Py unit :=
  data <- serial_read 6 ;;
  rcvd <- lift (struct_unpack_6B data) ;;
  button <- lift (tuple_getitem rcvd 1) ;;
  (fun self => (Return tt, set_input_button_state (Some button) self)) ;;;
  distance <- lift (tuple_getitem rcvd 4) ;;
  (fun self => (Return tt, set_distance_sensor (Some distance) self)).

Definition get_data_from_sensors : Py unit := _receive_data.

Definition set_motor_calibration (motor : string) (calibration_factor : Z) : Py unit :=
  py_assert (in_list motor miia_bit_motors) "Select either motor a or b" ;;;
  py_assert (in_range calibration_factor miia_bit_calibration_range)
    "Calibration factor must be in the range -50 to 50" ;;;
  (fun self =>
     (Return tt,
      set_motor_cal_values (<[motor := calibration_factor]> (motor_cal_values self)) self)).

Definition control_rgb_led (red green blue : Z) : Py unit :=
  py_assert (in_range red miia_bit_rgb_led_range)
    "Channel intensity must be between 0 and 100" ;;;
  py_assert (in_range green miia_bit_rgb_led_range)
    "Channel intensity must be between 0 and 100" ;;;
  py_assert (in_range blue miia_bit_rgb_led_range)
    "Channel intensity must be between 0 and 100" ;;;
  op_r <- lift (getitem miia_bit_opcodes "rgb_led_r") ;;
  op_g <- lift (getitem miia_bit_opcodes "rgb_led_g") ;;
  op_b <- lift (getitem miia_bit_opcodes "rgb_led_b") ;;
  let data_array := [op_r; red; op_g; green; op_b; blue] in
  packed_data_array <- lift (_pack_data_array data_array) ;;
  _send_data packed_data_array.

(** [buzzer_state] defaults to [None], which is no key of the table. *)
Definition control_buzzer (buzzer_state : option string) : Py unit :=
  py_assert (match buzzer_state with
             | Some s => in_dict s miia_bit_buzzer_states
             | None => false
             end) "Buzzer state must be 'on' or 'off'" ;;;
  op <- lift (getitem miia_bit_opcodes "buzzer") ;;
  v <- lift (match buzzer_state with
             | Some s => getitem miia_bit_buzzer_states s
             | None => Raise (KeyError "None")
             end) ;;
  let data_array := [op; v] in
  packed_data_array <- lift (_pack_data_array data_array) ;;
  _send_data packed_data_array.

Definition control_motor (motor direction : string) (speed : Z) : Py unit :=
  py_assert (in_dict direction miia_bit_motor_directions)
    "Direction must be either 'forward' or 'reverse" ;;;
  py_assert (in_range speed miia_bit_motor_speed_range)
    "Speed must be in the range 0 - 100" ;;;
  py_assert (in_list motor miia_bit_motors) "Select either motor a or b" ;;;
  let selected_motor := "motor_" +:+ motor in
  cal <- motor_cal_values_getitem motor ;;
  let speed := speed + cal in
  op <- lift (getitem miia_bit_opcodes selected_motor) ;;
  d <- lift (getitem miia_bit_motor_directions direction) ;;
  let data_array := [op; d; speed] in
  packed_data_array <- lift (_pack_data_array data_array) ;;
  _send_data packed_data_array.

Definition control_servo_motor (position : Z) : Py unit :=
  py_assert (in_range position miia_bit_servo_range)
    "Position must be in the range 0 - 100" ;;;
  op <- lift (getitem miia_bit_opcodes "servo") ;;
  let data_array := [op; position] in
  packed_data_array <- lift (_pack_data_array data_array) ;;
  _send_data packed_data_array.

(** [serial.Serial(port, baudrate, timeout)]: a freshly opened port has
    written nothing; [incoming] is what the robot will send. *)
Definition Serial_open (p : string) (b : Z) (t : Q) (incoming : bytes) : Serial :=
  {| port := p; baudrate := b; port_timeout := t; written := []; rx := incoming |}.

(** [MiiABit(device, baud_rate, timeout, motor_a_calibration,
    motor_b_calibration)]: the calibration factors are stored as given. *)
Definition __init__ (dev : string) (baud : Z) (tmo : Q)
    (motor_a_calibration motor_b_calibration : Z) (incoming : bytes)
  : outcome unit * MiiABit :=
  let self :=
    {| device := dev; baud_rate := baud; timeout := tmo;
       serial_connection := Serial_open dev baud tmo incoming;
       motor_cal_values :=
         <["a" := motor_a_calibration]> (<["b" := motor_b_calibration]> ∅);
       distance_sensor := None;
       input_button_state := None |} in
  _connection_ready self.

(** ** The calls of the public interface, as data *)

Inductive call :=
| ControlMotor (motor direction : string) (speed : Z)
| ControlServoMotor (position : Z)
| ControlRgbLed (red green blue : Z)
| ControlBuzzer (buzzer_state : option string)
| SetMotorCalibration (motor : string) (calibration_factor : Z).

Definition run (c : call) : Py unit :=
  match c with
  | ControlMotor motor direction speed => control_motor motor direction speed
  | ControlServoMotor position => control_servo_motor position
  | ControlRgbLed red green blue => control_rgb_led red green blue
  | ControlBuzzer buzzer_state => control_buzzer buzzer_state
  | SetMotorCalibration motor factor => set_motor_calibration motor factor
  end.

(** ** What the specification calls the domain of each call

    Written from the ranges and enumerations of the data model, not from
    the tables above. *)
Definition in_domain (c : call) : Prop :=
  match c with
  | ControlMotor motor direction speed =>
      (motor = "a" \/ motor = "b") /\
      (direction = "forward" \/ direction = "reverse") /\
      0 <= speed <= 100
  | ControlServoMotor position => 0 <= position <= 100
  | ControlRgbLed red green blue =>
      0 <= red <= 100 /\ 0 <= green <= 100 /\ 0 <= blue <= 100
  | ControlBuzzer buzzer_state =>
      buzzer_state = Some "on" \/ buzzer_state = Some "off"
  | SetMotorCalibration motor factor =>
      (motor = "a" \/ motor = "b") /\ -50 <= factor <= 50
  end.

(** The byte of an integer in [0, 255]. *)
Definition byte_of_Z (z : Z) : Byte.byte :=
  default Byte.x00 (Byte.of_N (Z.to_N z)).

(** The object after the [write] calls [items], nothing else touched. *)
Definition sent (items : list bytes) (self : MiiABit) : MiiABit :=
  let s := serial_connection self in
  set_serial
    {| port := port s; baudrate := baudrate s; port_timeout := port_timeout s;
       written := written s ++ items; rx := rx s |} self.

(** One [write] call per integer, each of one byte. *)
Definition frames (data : list Z) : list bytes :=
  map (fun z => [byte_of_Z z]) data.

(** A controller as the constructor leaves it. *)
Definition fresh (cal_a cal_b : Z) (incoming : bytes) : MiiABit :=
  snd (__init__ "/dev/ttyUSB0" BAUD_RATE TIMEOUT cal_a cal_b incoming).

(** The opcode of a motor and the wire value of a direction, as the
    specification's tables give them. *)
Definition motor_opcode (motor : string) : Z :=
  if decide (motor = "a") then 202 else 203.

Definition direction_value (direction : string) : Z :=
  if decide (direction = "forward") then 0 else 1.

(** What the specification says of a post-calibration speed outside
    [0, 255]: the value wrapped into one byte and sent, no error. *)
Definition silently_truncated (motor direction : string) (speed cal : Z)
    (self : MiiABit) : outcome unit * MiiABit :=
  (Return tt,
   sent (frames [motor_opcode motor; direction_value direction;
                 (speed + cal) mod 256]) self).

(** What the specification calls a well-formed telemetry frame: the
    markers 99, 99, 122, 122 at positions 0, 2, 3, 5. *)
Definition spec_well_formed (frame : list Z) : bool :=
  match frame with
  | [m0; _; m2; m3; _; m5] =>
      (m0 =? 99) && (m2 =? 99) && (m3 =? 122) && (m5 =? 122)
  | _ => false
  end.

(** Controllers and frames used as concrete inputs. *)
Definition controller_cal_0 : MiiABit := fresh 0 0 [].
Definition controller_cal_minus_10 : MiiABit := fresh (-10) 0 [].
Definition telemetry_example : bytes :=
  [Byte.x63; Byte.x01; Byte.x63; Byte.x7a; Byte.x25; Byte.x7a].
Definition telemetry_bad_markers : bytes :=
  [Byte.x00; Byte.x01; Byte.x00; Byte.x00; Byte.x25; Byte.x00].

(** A method body respects [R] on the part [proj] of the object when
    every run, returning or raising, leaves that part [R]-related to
    what it was. *)
Definition respects {T A : Type} (proj : MiiABit -> T) (R : relation T)
    (m : Py A) : Prop :=
  forall self, R (proj self) (proj (snd (m self))).

(** The log of [write] calls of the controller's port. *)
Definition write_log (self : MiiABit) : list bytes :=
  written (serial_connection self).

(** ** Sessions

    A caller issues requests one after the other; when a call raises,
    the caller goes on with the object as the failed call left it. *)
Inductive request :=
| Command (c : call)
| ReadSensors.

Definition serve (r : request) : Py unit :=
  match r with
  | Command c => run c
  | ReadSensors => get_data_from_sensors
  end.

Fixpoint session (rs : list request) (self : MiiABit) : MiiABit :=
  match rs with
  | [] => self
  | r :: rs' => session rs' (snd (serve r self))
  end.

(** The integers that fit one unsigned byte. *)
Definition fits_byte (z : Z) : Prop := 0 <= z <= 255.

(** Everything of the object but the log of writes. *)
Definition beside_log (self : MiiABit) :=
  (device self, baud_rate self, timeout self,
   port (serial_connection self), baudrate (serial_connection self),
   port_timeout (serial_connection self), rx (serial_connection self),
   motor_cal_values self, distance_sensor self, input_button_state self).

(** Both motors have a stored factor, and it lies in [-50, 50]. *)
Definition calibrated (self : MiiABit) : Prop :=
  forall motor, motor = "a" \/ motor = "b" ->
    exists cal, motor_cal_values self !! motor = Some cal /\ -50 <= cal <= 50.

(** A method that either raises, within [P], with the object untouched,
    or returns after writing the frame of some integers that all fit a
    byte. *)
Definition frame_or_raise (P : exn -> Prop) (m : Py unit) : Prop :=
  forall self,
    (exists e, P e /\ m self = (Raise e, self))
    \/ (exists data, Forall fits_byte data
                     /\ m self = (Return tt, sent (frames data) self)).

(** A step that leaves the object alone and raises only within [P]. *)
Definition pure_raising {A} (P : exn -> Prop) (m : Py A) : Prop :=
  forall self,
    (exists a, m self = (Return a, self))
    \/ (exists e, P e /\ m self = (Raise e, self)).

Definition not_assertion (e : exn) : Prop :=
  match e with
  | AssertionError _ => False
  | _ => True
  end.

(** The calls that drive an actuator. *)
Definition is_control (c : call) : bool :=
  match c with
  | SetMotorCalibration _ _ => false
  | _ => true
  end.

(** The exceptions of validation and of packing. *)
Definition assertion_or_packing (e : exn) : Prop :=
  (exists msg, e = AssertionError msg)
  \/ e = StructError "ubyte format requires 0 <= number <= 255".

(** * Properties *)

(** ** Membership tests *)

Lemma in_range_true x r : in_range x r = true <-> start r <= x < stop r.
Proof. unfold in_range. rewrite andb_true_iff, Z.leb_le, Z.ltb_lt. tauto. Qed.

Lemma in_list_motors motor :
  in_list motor miia_bit_motors = true <-> motor = "a" \/ motor = "b".
Proof.
  unfold in_list, miia_bit_motors. rewrite bool_decide_eq_true.
  rewrite !elem_of_cons, elem_of_nil. tauto.
Qed.

Lemma in_dict_directions direction :
  in_dict direction miia_bit_motor_directions = true
  <-> direction = "forward" \/ direction = "reverse".
Proof.
  unfold in_dict, miia_bit_motor_directions. rewrite bool_decide_eq_true.
  split.
  - intros Hs.
    destruct (decide (direction = "reverse")) as [->|Hr]; [tauto|].
    destruct (decide (direction = "forward")) as [->|Hf]; [tauto|].
    rewrite !lookup_insert_ne, lookup_empty in Hs by congruence.
    destruct Hs as [v Hv]. discriminate.
  - intros [->| ->]; eexists; reflexivity.
Qed.

Lemma in_dict_buzzer_states state :
  in_dict state miia_bit_buzzer_states = true
  <-> state = "on" \/ state = "off".
Proof.
  unfold in_dict, miia_bit_buzzer_states. rewrite bool_decide_eq_true.
  split.
  - intros Hs.
    destruct (decide (state = "on")) as [->|Hr]; [tauto|].
    destruct (decide (state = "off")) as [->|Hf]; [tauto|].
    rewrite !lookup_insert_ne, lookup_empty in Hs by congruence.
    destruct Hs as [v Hv]. discriminate.
  - intros [->| ->]; eexists; reflexivity.
Qed.

(** ** Packing *)

Lemma Z_of_byte_range b : 0 <= Z_of_byte b <= 255.
Proof.
  unfold Z_of_byte. pose proof (Byte.to_N_bounded b). lia.
Qed.

Lemma struct_pack_1B_ok item :
  0 <= item <= 255 -> struct_pack_1B item = Return [byte_of_Z item].
Proof.
  intros Hr. unfold struct_pack_1B, byte_of_Z.
  replace ((0 <=? item) && (item <=? 255)) with true
    by (symmetry; apply andb_true_iff; split; [apply Z.leb_le|apply Z.leb_le]; lia).
  destruct (Byte.of_N (Z.to_N item)) as [b|] eqn:Hb; [reflexivity|].
  apply Byte.of_N_None_iff in Hb. lia.
Qed.

Lemma struct_pack_1B_overflow item :
  item < 0 \/ 255 < item ->
  struct_pack_1B item
  = Raise (StructError "ubyte format requires 0 <= number <= 255").
Proof.
  intros Hr. unfold struct_pack_1B.
  replace ((0 <=? item) && (item <=? 255)) with false; [reflexivity|].
  symmetry. apply andb_false_iff. rewrite Z.leb_gt, Z.leb_gt. lia.
Qed.

Lemma Z_of_byte_of_Z item : 0 <= item <= 255 -> Z_of_byte (byte_of_Z item) = item.
Proof.
  intros Hr. unfold Z_of_byte, byte_of_Z.
  destruct (Byte.of_N (Z.to_N item)) as [b|] eqn:Hb.
  - apply Byte.to_of_N in Hb. simpl. rewrite Hb. lia.
  - apply Byte.of_N_None_iff in Hb. lia.
Qed.

Lemma pack_loop_ok data : forall acc,
  Forall (fun z => 0 <= z <= 255) data ->
  pack_loop data acc = Return (acc ++ frames data).
Proof.
  induction data as [|item data IH]; intros acc Hall; simpl.
  - by rewrite app_nil_r.
  - inversion Hall as [|? ? Hitem Hrest]; subst.
    rewrite struct_pack_1B_ok by assumption.
    rewrite IH by assumption. by rewrite <- app_assoc.
Qed.

Lemma _pack_data_array_ok data :
  Forall (fun z => 0 <= z <= 255) data ->
  _pack_data_array data = Return (frames data).
Proof. intros Hall. unfold _pack_data_array. by rewrite pack_loop_ok. Qed.

(** The first item that does not fit a byte stops the loop. *)
Lemma pack_loop_overflow pre item post : forall acc,
  Forall (fun z => 0 <= z <= 255) pre ->
  item < 0 \/ 255 < item ->
  pack_loop (pre ++ item :: post) acc
  = Raise (StructError "ubyte format requires 0 <= number <= 255").
Proof.
  induction pre as [|x pre IH]; intros acc Hall Hitem; simpl.
  - by rewrite struct_pack_1B_overflow.
  - inversion Hall as [|? ? Hx Hpre]; subst.
    rewrite struct_pack_1B_ok by assumption. by apply IH.
Qed.

Lemma wire_frames data :
  Forall (fun z => 0 <= z <= 255) data ->
  map Z_of_byte (concat (frames data)) = data.
Proof.
  induction 1 as [|z data Hz Hall IH]; simpl; [reflexivity|].
  rewrite Z_of_byte_of_Z by assumption. f_equal. exact IH.
Qed.

(** ** Sending *)

Lemma sent_nil self : sent [] self = self.
Proof.
  destruct self as [? ? ? [? ? ? ? ?] ? ? ?]. unfold sent, set_serial; simpl.
  by rewrite app_nil_r.
Qed.

Lemma _send_data_sent data_array : forall self,
  _send_data data_array self = (Return tt, sent data_array self).
Proof.
  induction data_array as [|item rest IH]; intros self; simpl.
  - unfold ret. by rewrite sent_nil.
  - unfold bind, serial_write. rewrite IH.
    f_equal. unfold sent, set_serial, Serial_write; simpl.
    by rewrite <- app_assoc.
Qed.

Lemma wire_sent items self :
  wire (serial_connection (sent items self))
  = wire (serial_connection self) ++ map Z_of_byte (concat items).
Proof. unfold wire, sent; simpl. by rewrite concat_app, map_app. Qed.

(** ** Running a method body step by step *)

Lemma bind_assert_true cond msg (k : unit -> Py unit) self :
  cond = true -> bind (py_assert cond msg) k self = k tt self.
Proof. intros ->. reflexivity. Qed.

Lemma bind_lift_return {A B} (o : outcome A) (a : A) (k : A -> Py B) self :
  o = Return a -> bind (lift o) k self = k a self.
Proof. intros ->. reflexivity. Qed.

Lemma bind_lift_raise {A B} (o : outcome A) e (k : A -> Py B) self :
  o = Raise e -> bind (lift o) k self = (Raise e, self).
Proof. intros ->. reflexivity. Qed.

Lemma bind_motor_cal {B} motor cal (k : Z -> Py B) self :
  motor_cal_values self !! motor = Some cal ->
  bind (motor_cal_values_getitem motor) k self = k cal self.
Proof.
  intros Hcal. unfold bind, motor_cal_values_getitem, getitem.
  by rewrite Hcal.
Qed.

(** ** The protocol table agrees with the specification's tables *)

Lemma opcode_of_motor motor :
  motor = "a" \/ motor = "b" ->
  getitem miia_bit_opcodes ("motor_" +:+ motor) = Return (motor_opcode motor).
Proof. intros [->| ->]; reflexivity. Qed.

Lemma value_of_direction direction :
  direction = "forward" \/ direction = "reverse" ->
  getitem miia_bit_motor_directions direction
  = Return (direction_value direction).
Proof. intros [->| ->]; reflexivity. Qed.

Lemma motor_opcode_byte motor : 0 <= motor_opcode motor <= 255.
Proof. unfold motor_opcode. case_decide; lia. Qed.

Lemma direction_value_byte direction : 0 <= direction_value direction <= 255.
Proof. unfold direction_value. case_decide; lia. Qed.

(** ** control_motor on arguments that pass the three assertions *)

Lemma control_motor_validated self motor direction speed cal :
  motor = "a" \/ motor = "b" ->
  direction = "forward" \/ direction = "reverse" ->
  0 <= speed <= 100 ->
  motor_cal_values self !! motor = Some cal ->
  control_motor motor direction speed self
  = bind (lift (_pack_data_array
                  [motor_opcode motor; direction_value direction; speed + cal]))
         _send_data self.
Proof.
  intros Hm Hd Hs Hcal. unfold control_motor.
  rewrite bind_assert_true by (by apply in_dict_directions).
  rewrite bind_assert_true
    by (apply in_range_true; unfold miia_bit_motor_speed_range; simpl; lia).
  rewrite bind_assert_true by (by apply in_list_motors).
  rewrite (bind_motor_cal _ cal) by assumption.
  rewrite (bind_lift_return _ _ _ _ (opcode_of_motor motor Hm)).
  rewrite (bind_lift_return _ _ _ _ (value_of_direction direction Hd)).
  reflexivity.
Qed.

Lemma control_motor_sends self motor direction speed cal :
  motor = "a" \/ motor = "b" ->
  direction = "forward" \/ direction = "reverse" ->
  0 <= speed <= 100 ->
  motor_cal_values self !! motor = Some cal ->
  0 <= speed + cal <= 255 ->
  control_motor motor direction speed self
  = (Return tt,
     sent (frames [motor_opcode motor; direction_value direction; speed + cal])
       self).
Proof.
  intros Hm Hd Hs Hcal Hsum.
  rewrite (control_motor_validated self motor direction speed cal)
    by assumption.
  rewrite (bind_lift_return _ (frames [motor_opcode motor;
                                       direction_value direction; speed + cal])).
  - apply _send_data_sent.
  - apply _pack_data_array_ok. repeat constructor; try lia;
      (apply motor_opcode_byte || apply direction_value_byte).
Qed.

Lemma control_motor_packing_error self motor direction speed cal :
  motor = "a" \/ motor = "b" ->
  direction = "forward" \/ direction = "reverse" ->
  0 <= speed <= 100 ->
  motor_cal_values self !! motor = Some cal ->
  speed + cal < 0 \/ 255 < speed + cal ->
  control_motor motor direction speed self
  = (Raise (StructError "ubyte format requires 0 <= number <= 255"), self).
Proof.
  intros Hm Hd Hs Hcal Hsum.
  rewrite (control_motor_validated self motor direction speed cal)
    by assumption.
  apply bind_lift_raise. unfold _pack_data_array.
  apply (pack_loop_overflow
           [motor_opcode motor; direction_value direction] (speed + cal) []).
  - repeat constructor;
      (apply motor_opcode_byte || apply direction_value_byte).
  - exact Hsum.
Qed.

Lemma opcode_rgb_led_r : getitem miia_bit_opcodes "rgb_led_r" = Return 204.
Proof. reflexivity. Qed.

Lemma opcode_rgb_led_g : getitem miia_bit_opcodes "rgb_led_g" = Return 205.
Proof. reflexivity. Qed.

Lemma opcode_rgb_led_b : getitem miia_bit_opcodes "rgb_led_b" = Return 206.
Proof. reflexivity. Qed.

(** ** Validation *)

Ltac reject := eexists; reflexivity.

(** C1: a call of control_motor, control_servo_motor, control_rgb_led,
    control_buzzer or set_motor_calibration with an argument outside its
    range or enumeration raises the assertion error of the failed check
    and leaves the object as it was: the log of writes, the calibration
    factors and the cached readings are those of before the call. *)
Theorem invalid_call_rejected (c : call) (self : MiiABit) :
  ~ in_domain c ->
  exists msg, run c self = (Raise (AssertionError msg), self).
Proof.
  intros Hbad. destruct c as [motor direction speed|position|red green blue
                             |buzzer_state|motor factor]; simpl in *.
  - unfold control_motor.
    destruct (in_dict direction miia_bit_motor_directions) eqn:Hd;
      [rewrite bind_assert_true by reflexivity|reject].
    destruct (in_range speed miia_bit_motor_speed_range) eqn:Hs;
      [rewrite bind_assert_true by reflexivity|reject].
    destruct (in_list motor miia_bit_motors) eqn:Hm;
      [rewrite bind_assert_true by reflexivity|reject].
    exfalso. apply Hbad.
    apply in_dict_directions in Hd. apply in_list_motors in Hm.
    apply in_range_true in Hs. simpl in Hs. repeat split; (assumption || lia).
  - unfold control_servo_motor.
    destruct (in_range position miia_bit_servo_range) eqn:Hp; [|reject].
    exfalso. apply Hbad. apply in_range_true in Hp. simpl in Hp. lia.
  - unfold control_rgb_led.
    destruct (in_range red miia_bit_rgb_led_range) eqn:Hr;
      [rewrite bind_assert_true by reflexivity|reject].
    destruct (in_range green miia_bit_rgb_led_range) eqn:Hg;
      [rewrite bind_assert_true by reflexivity|reject].
    destruct (in_range blue miia_bit_rgb_led_range) eqn:Hb;
      [rewrite bind_assert_true by reflexivity|reject].
    exfalso. apply Hbad.
    apply in_range_true in Hr, Hg, Hb. simpl in Hr, Hg, Hb. lia.
  - unfold control_buzzer. destruct buzzer_state as [state|]; [|reject].
    destruct (in_dict state miia_bit_buzzer_states) eqn:Hs; [|reject].
    exfalso. apply Hbad. apply in_dict_buzzer_states in Hs.
    destruct Hs as [->| ->]; tauto.
  - unfold set_motor_calibration.
    destruct (in_list motor miia_bit_motors) eqn:Hm;
      [rewrite bind_assert_true by reflexivity|reject].
    destruct (in_range factor miia_bit_calibration_range) eqn:Hf;
      [rewrite bind_assert_true by reflexivity|reject].
    exfalso. apply Hbad. apply in_list_motors in Hm.
    apply in_range_true in Hf. simpl in Hf. split; (assumption || lia).
Qed.

Lemma invalid_call_rejected_witness :
  ~ in_domain (ControlMotor "a" "forward" 101) /\
  exists msg,
    run (ControlMotor "a" "forward" 101) controller_cal_0
    = (Raise (AssertionError msg), controller_cal_0).
Proof.
  assert (Hbad : ~ in_domain (ControlMotor "a" "forward" 101))
    by (simpl; lia).
  split; [exact Hbad|].
  exact (invalid_call_rejected (ControlMotor "a" "forward" 101)
           controller_cal_0 Hbad).
Defined.

(** ** Motor frames *)

(** C2: with a speed in [0, 100] and a stored calibration factor in
    [-50, 50] whose sum lies in [0, 255], control_motor returns normally
    after exactly three one-byte writes: the opcode of the motor, the
    value of the direction, and speed + calibration.  In particular motor
    a, forward, speed 50 puts 202, 0, 50 on the wire with calibration 0
    and 202, 0, 40 with calibration -10. *)
Theorem control_motor_frame (self : MiiABit) motor direction speed cal :
  motor = "a" \/ motor = "b" ->
  direction = "forward" \/ direction = "reverse" ->
  0 <= speed <= 100 ->
  -50 <= cal <= 50 ->
  motor_cal_values self !! motor = Some cal ->
  0 <= speed + cal <= 255 ->
  control_motor motor direction speed self
  = (Return tt,
     sent [[byte_of_Z (motor_opcode motor)];
           [byte_of_Z (direction_value direction)];
           [byte_of_Z (speed + cal)]] self)
  /\ wire (serial_connection (snd (control_motor motor direction speed self)))
     = wire (serial_connection self)
       ++ [motor_opcode motor; direction_value direction; speed + cal]
  /\ (motor = "a" -> direction = "forward" -> speed = 50 -> cal = 0 ->
      wire (serial_connection (snd (control_motor motor direction speed self)))
      = wire (serial_connection self) ++ [202; 0; 50])
  /\ (motor = "a" -> direction = "forward" -> speed = 50 -> cal = -10 ->
      wire (serial_connection (snd (control_motor motor direction speed self)))
      = wire (serial_connection self) ++ [202; 0; 40]).
Proof.
  intros Hm Hd Hs Hc Hcal Hsum.
  assert (Hbytes : Forall (fun z => 0 <= z <= 255)
            [motor_opcode motor; direction_value direction; speed + cal]).
  { repeat constructor; try lia;
      [apply motor_opcode_byte| |apply direction_value_byte|];
      [apply motor_opcode_byte|apply direction_value_byte]. }
  assert (Hrun : control_motor motor direction speed self
          = (Return tt,
             sent (frames [motor_opcode motor; direction_value direction;
                           speed + cal]) self)).
  { by apply control_motor_sends. }
  assert (Hwire :
    wire (serial_connection (snd (control_motor motor direction speed self)))
    = wire (serial_connection self)
      ++ [motor_opcode motor; direction_value direction; speed + cal]).
  { rewrite Hrun. simpl snd. rewrite wire_sent.
    f_equal. exact (wire_frames _ Hbytes). }
  split; [exact Hrun|]. split; [exact Hwire|].
  split; intros -> -> -> ->; exact Hwire.
Qed.

Lemma control_motor_frame_witness :
  control_motor "a" "forward" 50 controller_cal_minus_10
  = (Return tt,
     sent [[Byte.xca]; [Byte.x00]; [Byte.x28]] controller_cal_minus_10)
  /\ wire (serial_connection
             (snd (control_motor "a" "forward" 50 controller_cal_minus_10)))
     = [0; 202; 0; 40].
Proof.
  assert (H := control_motor_frame controller_cal_minus_10
                 "a" "forward" 50 (-10)
                 (or_introl eq_refl) (or_introl eq_refl)
                 ltac:(lia) ltac:(lia) eq_refl ltac:(lia)).
  destruct H as (Hrun & Hwire & _ & H40).
  split; [exact Hrun|].
  exact (H40 eq_refl eq_refl eq_refl eq_refl).
Defined.

(** ** Post-calibration speeds that do not fit a byte *)

(** C3 as the specification words it does not hold: with calibration -10
    and speed 5 the sum is -5; control_motor raises the packing error,
    writes nothing, and so does not send the wrapped byte 251. *)
Lemma control_motor_truncation_refuted :
  motor_cal_values controller_cal_minus_10 !! "a" = Some (-10)
  /\ control_motor "a" "forward" 5 controller_cal_minus_10
     = (Raise (StructError "ubyte format requires 0 <= number <= 255"),
        controller_cal_minus_10)
  /\ control_motor "a" "forward" 5 controller_cal_minus_10
     <> silently_truncated "a" "forward" 5 (-10) controller_cal_minus_10.
Proof.
  split; [reflexivity|]. split; [reflexivity|]. discriminate.
Qed.

(** C3, amended: when speed + calibration falls outside [0, 255] the
    packing step of control_motor raises the packing error before any
    write: no byte is sent, wrapped or otherwise, and the object is as
    it was before the call. *)
Theorem control_motor_overflow_raises (self : MiiABit) motor direction speed cal :
  motor = "a" \/ motor = "b" ->
  direction = "forward" \/ direction = "reverse" ->
  0 <= speed <= 100 ->
  motor_cal_values self !! motor = Some cal ->
  speed + cal < 0 \/ 255 < speed + cal ->
  control_motor motor direction speed self
  = (Raise (StructError "ubyte format requires 0 <= number <= 255"), self)
  /\ wire (serial_connection (snd (control_motor motor direction speed self)))
     = wire (serial_connection self)
  /\ control_motor motor direction speed self
     <> silently_truncated motor direction speed cal self.
Proof.
  intros Hm Hd Hs Hcal Hsum.
  rewrite (control_motor_packing_error self motor direction speed cal)
    by assumption.
  split; [reflexivity|]. split; [reflexivity|]. discriminate.
Qed.

Lemma control_motor_overflow_raises_witness :
  control_motor "b" "reverse" 0 (fresh 0 (-50) [])
  = (Raise (StructError "ubyte format requires 0 <= number <= 255"),
     fresh 0 (-50) []).
Proof.
  apply (control_motor_overflow_raises (fresh 0 (-50) []) "b" "reverse" 0 (-50));
    [right; reflexivity|right; reflexivity|lia|reflexivity|lia].
Defined.

(** ** Telemetry *)

Lemma _receive_data_frame (self : MiiABit) b0 b1 b2 b3 b4 b5 rest :
  rx (serial_connection self) = b0 :: b1 :: b2 :: b3 :: b4 :: b5 :: rest ->
  _receive_data self
  = (Return tt,
     set_distance_sensor (Some (Z_of_byte b4))
       (set_input_button_state (Some (Z_of_byte b1))
          (set_serial (snd (Serial_read 6 (serial_connection self))) self))).
Proof.
  intros Hrx. unfold _receive_data, bind, serial_read, Serial_read.
  rewrite Hrx. reflexivity.
Qed.

(** C4: get_data_from_sensors takes exactly six bytes from the port,
    stores byte 1 as the input-button state and byte 4 as the distance,
    and returns no value; nothing is written and the calibration factors
    stay.  The frame 99, 1, 99, 122, 37, 122 gives button state 1 and
    distance 37. *)
Theorem get_data_from_sensors_decodes (self : MiiABit) b0 b1 b2 b3 b4 b5 rest :
  rx (serial_connection self) = b0 :: b1 :: b2 :: b3 :: b4 :: b5 :: rest ->
  exists self',
    get_data_from_sensors self = (Return tt, self')
    /\ input_button_state self' = Some (Z_of_byte b1)
    /\ distance_sensor self' = Some (Z_of_byte b4)
    /\ rx (serial_connection self') = rest
    /\ write_log self' = write_log self
    /\ motor_cal_values self' = motor_cal_values self
    /\ (map Z_of_byte [b0; b1; b2; b3; b4; b5] = [99; 1; 99; 122; 37; 122] ->
        input_button_state self' = Some 1 /\ distance_sensor self' = Some 37).
Proof.
  intros Hrx. eexists. split.
  - unfold get_data_from_sensors.
    exact (_receive_data_frame self b0 b1 b2 b3 b4 b5 rest Hrx).
  - simpl. rewrite Hrx.
    do 5 (split; [reflexivity|]).
    intros Hframe. injection Hframe as _ Hb _ _ Hd _.
    rewrite Hb, Hd. split; reflexivity.
Qed.

Lemma get_data_from_sensors_decodes_witness :
  exists self',
    get_data_from_sensors (fresh 0 0 telemetry_example) = (Return tt, self')
    /\ input_button_state self' = Some 1
    /\ distance_sensor self' = Some 37
    /\ rx (serial_connection self') = [].
Proof.
  destruct (get_data_from_sensors_decodes (fresh 0 0 telemetry_example)
              Byte.x63 Byte.x01 Byte.x63 Byte.x7a Byte.x25 Byte.x7a []
              eq_refl)
    as (self' & Hrun & _ & _ & Hrx & _ & _ & Hex).
  exists self'. destruct (Hex eq_refl) as [Hb Hd].
  repeat split; assumption.
Defined.

(** C5 as the specification words it does not hold: a frame whose four
    marker bytes are all 0 is not well-formed, and get_data_from_sensors
    accepts it, caching button state 1 and distance 37. *)
Lemma bad_markers_accepted :
  spec_well_formed (map Z_of_byte telemetry_bad_markers) = false
  /\ fst (get_data_from_sensors (fresh 0 0 telemetry_bad_markers)) = Return tt
  /\ input_button_state
       (snd (get_data_from_sensors (fresh 0 0 telemetry_bad_markers))) = Some 1
  /\ distance_sensor
       (snd (get_data_from_sensors (fresh 0 0 telemetry_bad_markers))) = Some 37.
Proof. repeat split; reflexivity. Qed.

(** C5, amended: the driver does not look at the marker bytes.  Any six
    bytes are accepted as a frame, well-formed or not: the call returns
    normally with byte 1 cached as the button state and byte 4 as the
    distance. *)
Theorem telemetry_markers_unchecked (self : MiiABit) (frame rest : bytes) :
  length frame = 6%nat ->
  rx (serial_connection self) = frame ++ rest ->
  fst (get_data_from_sensors self) = Return tt
  /\ input_button_state (snd (get_data_from_sensors self))
     = map Z_of_byte frame !! 1%nat
  /\ distance_sensor (snd (get_data_from_sensors self))
     = map Z_of_byte frame !! 4%nat.
Proof.
  intros Hlen Hrx.
  destruct frame as [|b0 [|b1 [|b2 [|b3 [|b4 [|b5 [|b6 frame]]]]]]];
    try discriminate Hlen.
  simpl in Hrx. unfold get_data_from_sensors.
  rewrite (_receive_data_frame self b0 b1 b2 b3 b4 b5 rest Hrx).
  repeat split; reflexivity.
Qed.

Lemma telemetry_markers_unchecked_witness :
  fst (get_data_from_sensors (fresh 0 0 telemetry_bad_markers)) = Return tt.
Proof.
  exact (proj1 (telemetry_markers_unchecked
                  (fresh 0 0 telemetry_bad_markers) telemetry_bad_markers []
                  eq_refl eq_refl)).
Defined.

(** C9: when fewer than six bytes arrive before the timeout,
    get_data_from_sensors raises (the unpacking error) and the cached
    button state and distance are those of before the call; the bytes
    that did arrive have left the receive buffer. *)
Theorem short_read_keeps_cache (self : MiiABit) :
  (length (rx (serial_connection self)) < 6)%nat ->
  exists self',
    get_data_from_sensors self
    = (Raise (StructError "unpack requires a buffer of 6 bytes"), self')
    /\ input_button_state self' = input_button_state self
    /\ distance_sensor self' = distance_sensor self
    /\ motor_cal_values self' = motor_cal_values self
    /\ write_log self' = write_log self
    /\ rx (serial_connection self') = [].
Proof.
  intros Hshort. eexists. split.
  - unfold get_data_from_sensors, _receive_data, bind, serial_read, Serial_read.
    unfold lift, struct_unpack_6B.
    rewrite length_take.
    replace (6 `min` length (rx (serial_connection self)) =? 6)%nat with false
      by (symmetry; apply Nat.eqb_neq; lia).
    reflexivity.
  - simpl. repeat split. apply drop_ge. lia.
Qed.

Lemma short_read_keeps_cache_witness :
  exists self',
    get_data_from_sensors (fresh 0 0 [Byte.x63; Byte.x01; Byte.x63])
    = (Raise (StructError "unpack requires a buffer of 6 bytes"), self')
    /\ input_button_state self' = None
    /\ distance_sensor self' = None.
Proof.
  destruct (short_read_keeps_cache (fresh 0 0 [Byte.x63; Byte.x01; Byte.x63]))
    as (self' & Hrun & Hb & Hd & _); [simpl; lia|].
  exists self'. repeat split; assumption.
Defined.

(** ** What a method body leaves alone

    The steps every method is built from respect any reflexive and
    transitive relation on any part of the object, as soon as a single
    [write] does. *)

Section Respects.
Context {T : Type} (proj : MiiABit -> T) (R : relation T).
Hypothesis R_refl : forall x, R x x.
Hypothesis R_trans : forall x y z, R x y -> R y z -> R x z.
Hypothesis write_respects : forall item, respects proj R (serial_write item).

Lemma respects_ret {A} (a : A) : respects proj R (ret a).
Proof. intros self. apply R_refl. Qed.

Lemma respects_lift {A} (o : outcome A) : respects proj R (lift o).
Proof. intros self. apply R_refl. Qed.

Lemma respects_assert cond msg : respects proj R (py_assert cond msg).
Proof. intros self. destruct cond; apply R_refl. Qed.

Lemma respects_cal_getitem motor :
  respects proj R (motor_cal_values_getitem motor).
Proof. intros self. apply R_refl. Qed.

Lemma respects_bind {A B} (m : Py A) (k : A -> Py B) :
  respects proj R m -> (forall a, respects proj R (k a)) ->
  respects proj R (bind m k).
Proof.
  intros Hm Hk self. unfold bind.
  specialize (Hm self). destruct (m self) as [[a|e] self']; simpl in *.
  - apply (R_trans _ _ _ Hm). apply Hk.
  - exact Hm.
Qed.

Lemma respects_send_data data_array : respects proj R (_send_data data_array).
Proof.
  induction data_array as [|item rest IH]; simpl.
  - apply respects_ret.
  - apply respects_bind; [apply write_respects|intros _; exact IH].
Qed.

Ltac step :=
  first [ apply respects_send_data | apply respects_assert
        | apply respects_lift | apply respects_cal_getitem
        | apply respects_bind; [|intros ?] ]; cbv zeta.

Lemma respects_control_motor motor direction speed :
  respects proj R (control_motor motor direction speed).
Proof. unfold control_motor. repeat step. Qed.

Lemma respects_control_servo_motor position :
  respects proj R (control_servo_motor position).
Proof. unfold control_servo_motor. repeat step. Qed.

Lemma respects_control_rgb_led red green blue :
  respects proj R (control_rgb_led red green blue).
Proof. unfold control_rgb_led. repeat step. Qed.

Lemma respects_control_buzzer buzzer_state :
  respects proj R (control_buzzer buzzer_state).
Proof. unfold control_buzzer. repeat step. Qed.

End Respects.

(** The calibration factors are untouched by a write. *)
Lemma write_keeps_calibration item :
  respects motor_cal_values eq (serial_write item).
Proof. intros self. reflexivity. Qed.

(** The log of writes only grows. *)
Lemma write_extends_log item : respects write_log prefix (serial_write item).
Proof. intros self. unfold write_log; simpl. by apply prefix_app_r. Qed.

Lemma run_extends_log c : respects write_log prefix (run c).
Proof.
  assert (Hrefl : forall l : list bytes, l `prefix_of` l) by reflexivity.
  assert (Htrans : forall x y z : list bytes,
             x `prefix_of` y -> y `prefix_of` z -> x `prefix_of` z)
    by (intros x y z; apply transitivity).
  destruct c as [motor direction speed|position|red green blue
                |buzzer_state|motor factor]; simpl.
  - apply respects_control_motor; auto using write_extends_log.
  - apply respects_control_servo_motor; auto using write_extends_log.
  - apply respects_control_rgb_led; auto using write_extends_log.
  - apply respects_control_buzzer; auto using write_extends_log.
  - unfold set_motor_calibration.
    apply respects_bind; [assumption|apply respects_assert; assumption|].
    intros _.
    apply respects_bind; [assumption|apply respects_assert; assumption|].
    intros _ self. reflexivity.
Qed.

Lemma get_data_from_sensors_extends_log :
  respects write_log prefix get_data_from_sensors.
Proof.
  intros self.
  unfold get_data_from_sensors, _receive_data, bind, serial_read, Serial_read.
  unfold lift. simpl.
  destruct (struct_unpack_6B _) as [rcvd|e]; simpl; [|reflexivity].
  destruct (tuple_getitem rcvd 1) as [button|e]; simpl; [|reflexivity].
  destruct (tuple_getitem rcvd 4) as [distance|e]; simpl; reflexivity.
Qed.

(** ** Construction *)

(** C6: constructing a controller makes exactly one write, of the single
    byte 0: the log of the new controller is that one write and the wire
    carries just 0.  Whatever call comes next, its writes follow the
    handshake. *)
Theorem construction_handshake dev baud tmo cal_a cal_b (incoming : bytes) :
  fst (__init__ dev baud tmo cal_a cal_b incoming) = Return tt
  /\ write_log (snd (__init__ dev baud tmo cal_a cal_b incoming))
     = [[Byte.x00]]
  /\ wire (serial_connection (snd (__init__ dev baud tmo cal_a cal_b incoming)))
     = [0]
  /\ (forall c, exists later,
        write_log (snd (run c (snd (__init__ dev baud tmo cal_a cal_b incoming))))
        = [Byte.x00] :: later)
  /\ (exists later,
        write_log (snd (get_data_from_sensors
                          (snd (__init__ dev baud tmo cal_a cal_b incoming))))
        = [Byte.x00] :: later).
Proof.
  split; [reflexivity|]. split; [reflexivity|]. split; [reflexivity|].
  split.
  - intros c.
    destruct (run_extends_log c (snd (__init__ dev baud tmo cal_a cal_b incoming)))
      as [later Hlater].
    exists later. exact Hlater.
  - destruct (get_data_from_sensors_extends_log
                (snd (__init__ dev baud tmo cal_a cal_b incoming)))
      as [later Hlater].
    exists later. exact Hlater.
Qed.

(** ** LED frames *)

(** C7: with the three intensities in [0, 100], control_rgb_led returns
    normally after six one-byte writes that put 204, red, 205, green,
    206, blue on the wire in that order; control_rgb_led(0, 0, 0) puts
    204, 0, 205, 0, 206, 0. *)
Theorem control_rgb_led_frame (self : MiiABit) red green blue :
  0 <= red <= 100 -> 0 <= green <= 100 -> 0 <= blue <= 100 ->
  control_rgb_led red green blue self
  = (Return tt,
     sent [[Byte.xcc]; [byte_of_Z red]; [Byte.xcd]; [byte_of_Z green];
           [Byte.xce]; [byte_of_Z blue]] self)
  /\ wire (serial_connection (snd (control_rgb_led red green blue self)))
     = wire (serial_connection self) ++ [204; red; 205; green; 206; blue]
  /\ wire (serial_connection (snd (control_rgb_led 0 0 0 self)))
     = wire (serial_connection self) ++ [204; 0; 205; 0; 206; 0].
Proof.
  assert (Hgen : forall r g b,
    0 <= r <= 100 -> 0 <= g <= 100 -> 0 <= b <= 100 ->
    control_rgb_led r g b self
    = (Return tt, sent (frames [204; r; 205; g; 206; b]) self)
    /\ wire (serial_connection (snd (control_rgb_led r g b self)))
       = wire (serial_connection self) ++ [204; r; 205; g; 206; b]).
  { intros r g b Hr Hg Hb.
    assert (Hbytes : Forall (fun z => 0 <= z <= 255) [204; r; 205; g; 206; b])
      by (repeat constructor; lia).
    assert (Hrun : control_rgb_led r g b self
            = (Return tt, sent (frames [204; r; 205; g; 206; b]) self)).
    { unfold control_rgb_led.
      do 3 (rewrite bind_assert_true by (apply in_range_true; simpl; lia)).
      rewrite (bind_lift_return _ _ _ _ opcode_rgb_led_r).
      rewrite (bind_lift_return _ _ _ _ opcode_rgb_led_g).
      rewrite (bind_lift_return _ _ _ _ opcode_rgb_led_b).
      rewrite (bind_lift_return _ _ _ _ (_pack_data_array_ok _ Hbytes)).
      apply _send_data_sent. }
    split; [exact Hrun|].
    rewrite Hrun. simpl snd. rewrite wire_sent.
    f_equal. exact (wire_frames _ Hbytes). }
  intros Hr Hg Hb.
  destruct (Hgen red green blue Hr Hg Hb) as [Hrun Hwire].
  split; [exact Hrun|]. split; [exact Hwire|].
  apply Hgen; lia.
Qed.

Lemma control_rgb_led_frame_witness :
  wire (serial_connection (snd (control_rgb_led 100 0 7 controller_cal_0)))
  = [0; 204; 100; 205; 0; 206; 7].
Proof.
  exact (proj1 (proj2 (control_rgb_led_frame controller_cal_0 100 0 7
                         ltac:(lia) ltac:(lia) ltac:(lia)))).
Defined.

(** ** Calibration *)

(** C8: for motor a or b and a factor in [-50, 50], set_motor_calibration
    returns normally, the stored factor of that motor is the new one,
    the factor of the other motor stays, and the port sees no write. *)
Theorem set_motor_calibration_stores (self : MiiABit) motor factor :
  motor = "a" \/ motor = "b" ->
  -50 <= factor <= 50 ->
  set_motor_calibration motor factor self
  = (Return tt,
     set_motor_cal_values (<[motor := factor]> (motor_cal_values self)) self)
  /\ motor_cal_values (snd (set_motor_calibration motor factor self)) !! motor
     = Some factor
  /\ (forall other, other <> motor ->
      motor_cal_values (snd (set_motor_calibration motor factor self)) !! other
      = motor_cal_values self !! other)
  /\ write_log (snd (set_motor_calibration motor factor self)) = write_log self
  /\ wire (serial_connection (snd (set_motor_calibration motor factor self)))
     = wire (serial_connection self).
Proof.
  intros Hm Hf.
  assert (Hrun : set_motor_calibration motor factor self
          = (Return tt,
             set_motor_cal_values
               (<[motor := factor]> (motor_cal_values self)) self)).
  { unfold set_motor_calibration.
    rewrite bind_assert_true by (by apply in_list_motors).
    rewrite bind_assert_true by (apply in_range_true; simpl; lia).
    reflexivity. }
  split; [exact Hrun|]. rewrite Hrun. simpl.
  split; [apply lookup_insert_eq|].
  split; [intros other Hne; by apply lookup_insert_ne|].
  split; reflexivity.
Qed.

Lemma set_motor_calibration_stores_witness :
  motor_cal_values (snd (set_motor_calibration "b" (-50) controller_cal_0)) !! "b"
  = Some (-50)
  /\ write_log (snd (set_motor_calibration "b" (-50) controller_cal_0))
     = [[Byte.x00]].
Proof.
  destruct (set_motor_calibration_stores controller_cal_0 "b" (-50)
              (or_intror eq_refl) ltac:(lia))
    as (_ & Hstored & _ & Hlog & _).
  split; [exact Hstored|exact Hlog].
Defined.

(** ** The effective speed *)

(** C10: in a call of control_motor that passes validation, with the
    stored factor of the motor in [-50, 50], the speed handed to the
    packing step is speed + calibration and lies in [-50, 150]; it never
    exceeds 255, so it misses [0, 255] exactly when the sum is negative,
    which is exactly when the call raises instead of sending.  No call
    of control_motor, control_servo_motor, control_rgb_led or
    control_buzzer, valid or not, changes the stored factors. *)
Theorem effective_speed_bounds (self : MiiABit) motor direction speed cal :
  motor = "a" \/ motor = "b" ->
  direction = "forward" \/ direction = "reverse" ->
  0 <= speed <= 100 ->
  -50 <= cal <= 50 ->
  motor_cal_values self !! motor = Some cal ->
  control_motor motor direction speed self
  = bind (lift (_pack_data_array
                  [motor_opcode motor; direction_value direction; speed + cal]))
         _send_data self
  /\ -50 <= speed + cal <= 150
  /\ speed + cal <= 255
  /\ (~ 0 <= speed + cal <= 255 <-> cal < - speed)
  /\ (fst (control_motor motor direction speed self) = Return tt
      <-> 0 <= speed + cal)
  /\ (fst (control_motor motor direction speed self)
      = Raise (StructError "ubyte format requires 0 <= number <= 255")
      <-> speed + cal < 0)
  /\ (forall m d s,
      motor_cal_values (snd (control_motor m d s self)) = motor_cal_values self)
  /\ (forall position,
      motor_cal_values (snd (control_servo_motor position self))
      = motor_cal_values self)
  /\ (forall r g b,
      motor_cal_values (snd (control_rgb_led r g b self)) = motor_cal_values self)
  /\ (forall state,
      motor_cal_values (snd (control_buzzer state self)) = motor_cal_values self).
Proof.
  intros Hm Hd Hs Hc Hcal.
  split; [by apply control_motor_validated|].
  split; [lia|]. split; [lia|]. split; [lia|].
  assert (Hcases : 0 <= speed + cal <= 255 \/ speed + cal < 0) by lia.
  split; [|split].
  - destruct Hcases as [Hfit|Hneg].
    + rewrite (control_motor_sends self motor direction speed cal
                 Hm Hd Hs Hcal Hfit).
      simpl. split; [lia|reflexivity].
    + rewrite (control_motor_packing_error self motor direction speed cal
                 Hm Hd Hs Hcal (or_introl Hneg)).
      simpl. split; [discriminate|lia].
  - destruct Hcases as [Hfit|Hneg].
    + rewrite (control_motor_sends self motor direction speed cal
                 Hm Hd Hs Hcal Hfit).
      simpl. split; [discriminate|lia].
    + rewrite (control_motor_packing_error self motor direction speed cal
                 Hm Hd Hs Hcal (or_introl Hneg)).
      simpl. split; [lia|reflexivity].
  - assert (Htrans : forall x y z : gmap string Z, x = y -> y = z -> x = z)
      by (intros; congruence).
    split; [|split; [|split]]; intros; symmetry.
    + apply (respects_control_motor motor_cal_values eq); auto.
      apply write_keeps_calibration.
    + apply (respects_control_servo_motor motor_cal_values eq); auto.
      apply write_keeps_calibration.
    + apply (respects_control_rgb_led motor_cal_values eq); auto.
      apply write_keeps_calibration.
    + apply (respects_control_buzzer motor_cal_values eq); auto.
      apply write_keeps_calibration.
Qed.

Lemma effective_speed_bounds_witness :
  fst (control_motor "a" "reverse" 100 (fresh 50 0 [])) = Return tt
  /\ -50 <= 100 + 50 <= 150.
Proof.
  destruct (effective_speed_bounds (fresh 50 0 []) "a" "reverse" 100 50
              (or_introl eq_refl) (or_intror eq_refl)
              ltac:(lia) ltac:(lia) eq_refl)
    as (_ & Hbounds & _ & _ & Hret & _).
  split; [apply Hret; lia|exact Hbounds].
Defined.

(** * Further properties of the driver *)

(** ** Packing, in general *)

Lemma pack_loop_rejects data : forall acc,
  ~ Forall fits_byte data ->
  pack_loop data acc
  = Raise (StructError "ubyte format requires 0 <= number <= 255").
Proof.
  induction data as [|item data IH]; intros acc Hnot; simpl.
  - exfalso. apply Hnot. constructor.
  - destruct (decide (fits_byte item)) as [Hfit|Hout].
    + rewrite struct_pack_1B_ok by exact Hfit.
      apply IH. intros Hall. apply Hnot. by constructor.
    + rewrite struct_pack_1B_overflow; [reflexivity|].
      unfold fits_byte in Hout. lia.
Qed.

Lemma pack_cases data :
  (Forall fits_byte data /\ _pack_data_array data = Return (frames data))
  \/ (~ Forall fits_byte data
      /\ _pack_data_array data
         = Raise (StructError "ubyte format requires 0 <= number <= 255")).
Proof.
  destruct (decide (Forall fits_byte data)) as [Hall|Hnot].
  - left. split; [exact Hall|]. by apply _pack_data_array_ok.
  - right. split; [exact Hnot|]. by apply pack_loop_rejects.
Qed.

Lemma frames_single data : Forall (fun item => length item = 1%nat) (frames data).
Proof. unfold frames. apply Forall_map. by apply Forall_true. Qed.

(** X1: _pack_data_array is all or nothing.  It returns exactly when
    every item lies in [0, 255], and then gives one single-byte object
    per item, in order; as soon as one item does not fit it raises the
    packing error and no partial array comes back. *)
Theorem pack_data_array_all_or_nothing (data : list Z) :
  _pack_data_array data
  = (if decide (Forall fits_byte data) then Return (frames data)
     else Raise (StructError "ubyte format requires 0 <= number <= 255"))
  /\ length (frames data) = length data
  /\ Forall (fun item => length item = 1%nat) (frames data).
Proof.
  split; [|split].
  - destruct (pack_cases data) as [[Hall Hrun]|[Hnot Hrun]];
      rewrite Hrun; case_decide; (reflexivity || contradiction).
  - unfold frames. apply length_map.
  - apply frames_single.
Qed.

(** X2: packing then unpacking gives the integers back.  When all the
    items fit a byte, the bytes of the packed array decode to the items;
    for six items, struct.unpack with the telemetry format returns
    them. *)
Theorem pack_unpack_round_trip (data : list Z) :
  Forall fits_byte data ->
  exists packed,
    _pack_data_array data = Return packed
    /\ map Z_of_byte (concat packed) = data
    /\ (length data = 6%nat -> struct_unpack_6B (concat packed) = Return data).
Proof.
  intros Hall. exists (frames data).
  assert (Hback : map Z_of_byte (concat (frames data)) = data)
    by (by apply wire_frames).
  split; [by apply _pack_data_array_ok|]. split; [exact Hback|].
  intros Hlen. unfold struct_unpack_6B.
  assert (Hlen' : length (concat (frames data)) = 6%nat).
  { rewrite <- (length_map Z_of_byte), Hback. exact Hlen. }
  rewrite Hlen'. simpl. by rewrite Hback.
Qed.

Lemma pack_unpack_round_trip_witness :
  exists packed,
    _pack_data_array [99; 1; 99; 122; 37; 122] = Return packed
    /\ struct_unpack_6B (concat packed) = Return [99; 1; 99; 122; 37; 122].
Proof.
  destruct (pack_unpack_round_trip [99; 1; 99; 122; 37; 122])
    as (packed & Hpack & _ & Hunpack).
  - repeat constructor; unfold fits_byte; lia.
  - exists packed. split; [exact Hpack|]. apply Hunpack. reflexivity.
Defined.

(** ** Sending, in general *)


Lemma beside_log_sent items self : beside_log (sent items self) = beside_log self.
Proof. reflexivity. Qed.

Lemma write_log_sent items self :
  write_log (sent items self) = write_log self ++ items.
Proof. reflexivity. Qed.


(** ** The shape of a control method

    Every control method is a run of steps that leave the object alone
    (assertions, table lookups), then the packing, then the sending. *)

Section Shape.
Variable P : exn -> Prop.

Lemma pure_raising_assert cond msg :
  cond = true \/ P (AssertionError msg) -> pure_raising P (py_assert cond msg).
Proof.
  intros Hc self. destruct cond; simpl.
  - left. by exists tt.
  - right. exists (AssertionError msg).
    split; [destruct Hc as [Hc|Hc]; [discriminate|exact Hc]|reflexivity].
Qed.

Lemma pure_raising_lift {A} (o : outcome A) :
  (forall e, o = Raise e -> P e) -> pure_raising P (lift o).
Proof.
  intros Ho self. destruct o as [a|e]; [left; by exists a|].
  right. exists e. split; [by apply Ho|reflexivity].
Qed.

Lemma pure_raising_getitem d k :
  P (KeyError k) -> pure_raising P (lift (getitem d k)).
Proof.
  intros Hk. apply pure_raising_lift. intros e. unfold getitem.
  destruct (d !! k); [discriminate|]. by intros [= <-].
Qed.

Lemma pure_raising_cal_getitem motor :
  P (KeyError motor) -> pure_raising P (motor_cal_values_getitem motor).
Proof.
  intros Hk self. unfold motor_cal_values_getitem, getitem.
  destruct (motor_cal_values self !! motor) as [cal|]; [left; by exists cal|].
  right. exists (KeyError motor). by split.
Qed.

Lemma frame_or_raise_bind {A} (m : Py A) (k : A -> Py unit) :
  pure_raising P m -> (forall a, frame_or_raise P (k a)) ->
  frame_or_raise P (bind m k).
Proof.
  intros Hm Hk self. unfold bind.
  destruct (Hm self) as [[a Ha]|(e & He & Hr)].
  - rewrite Ha. apply Hk.
  - rewrite Hr. left. exists e. by split.
Qed.

Lemma frame_or_raise_pack_send data :
  P (StructError "ubyte format requires 0 <= number <= 255") ->
  frame_or_raise P (bind (lift (_pack_data_array data)) _send_data).
Proof.
  intros Hs self. unfold bind, lift.
  destruct (pack_cases data) as [[Hall Hrun]|[Hnot Hrun]]; rewrite Hrun.
  - right. exists data. split; [exact Hall|apply _send_data_sent].
  - left. eexists. split; [exact Hs|reflexivity].
Qed.
End Shape.

Ltac shape :=
  repeat first
    [ apply frame_or_raise_pack_send
    | apply frame_or_raise_bind; [|intros ?]; cbv zeta
    | apply pure_raising_assert
    | apply pure_raising_getitem
    | apply pure_raising_cal_getitem
    | apply pure_raising_lift ].

Lemma control_frame_or_nothing c :
  is_control c = true -> frame_or_raise (fun _ => True) (run c).
Proof.
  destruct c as [motor direction speed|position|red green blue
                |buzzer_state|motor factor]; simpl; [| | | |discriminate];
    intros _.
  - unfold control_motor. shape; auto.
  - unfold control_servo_motor. shape; auto.
  - unfold control_rgb_led. shape; auto.
  - unfold control_buzzer. shape; auto.
Qed.

(** X4: a control call that raises has done nothing.  Whatever the
    exception (a failed assertion, a missing key, a value that does not
    pack), the object after the call is the object before it: no part of
    a frame was written.  The same holds of set_motor_calibration. *)
Theorem failed_call_changes_nothing (c : call) (self : MiiABit) (e : exn) :
  fst (run c self) = Raise e -> snd (run c self) = self.
Proof.
  destruct (is_control c) eqn:Hc.
  - destruct (control_frame_or_nothing c Hc self)
      as [(e' & _ & Hr)|(data & _ & Hr)]; rewrite Hr; simpl;
      [reflexivity|discriminate].
  - destruct c as [| | | |motor factor]; try discriminate Hc. simpl.
    unfold set_motor_calibration, bind, py_assert.
    destruct (in_list motor miia_bit_motors); simpl; [|reflexivity].
    destruct (in_range factor miia_bit_calibration_range); simpl;
      [discriminate|reflexivity].
Qed.

Lemma failed_call_changes_nothing_witness :
  snd (run (ControlMotor "a" "forward" 5) controller_cal_minus_10)
  = controller_cal_minus_10.
Proof.
  apply (failed_call_changes_nothing (ControlMotor "a" "forward" 5)
           controller_cal_minus_10
           (StructError "ubyte format requires 0 <= number <= 255")).
  reflexivity.
Defined.

(** X5: a control call touches the log of writes and nothing else.  For
    control_motor, control_servo_motor, control_rgb_led and
    control_buzzer, with any arguments, the receive buffer, the port
    settings, the calibration factors and the cached readings after the
    call are those of before; the log grows by one single-byte write per
    item of a frame whose items all fit a byte, or not at all. *)
Theorem control_call_only_writes (c : call) (self : MiiABit) :
  is_control c = true ->
  beside_log (snd (run c self)) = beside_log self
  /\ exists data,
       Forall fits_byte data
       /\ write_log (snd (run c self)) = write_log self ++ frames data
       /\ wire (serial_connection (snd (run c self)))
          = wire (serial_connection self) ++ data.
Proof.
  intros Hc.
  destruct (control_frame_or_nothing c Hc self)
    as [(e' & _ & Hr)|(data & Hall & Hr)]; rewrite Hr; simpl snd.
  - split; [reflexivity|]. exists []. simpl.
    rewrite !app_nil_r. repeat split. constructor.
  - split; [reflexivity|]. exists data.
    split; [exact Hall|]. split; [reflexivity|].
    rewrite wire_sent. f_equal. by apply wire_frames.
Qed.

Lemma control_call_only_writes_witness :
  beside_log (snd (run (ControlServoMotor 30) controller_cal_0))
  = beside_log controller_cal_0.
Proof.
  exact (proj1 (control_call_only_writes (ControlServoMotor 30)
                  controller_cal_0 eq_refl)).
Defined.

(** ** Buzzer and servo frames *)

Lemma opcode_buzzer : getitem miia_bit_opcodes "buzzer" = Return 201.
Proof. reflexivity. Qed.

Lemma opcode_servo : getitem miia_bit_opcodes "servo" = Return 208.
Proof. reflexivity. Qed.

Lemma control_buzzer_on self :
  control_buzzer (Some "on") self
  = (Return tt, sent (frames [201; 1]) self).
Proof.
  unfold control_buzzer.
  rewrite bind_assert_true by reflexivity.
  rewrite (bind_lift_return _ 201) by reflexivity.
  rewrite (bind_lift_return _ 1) by reflexivity.
  rewrite (bind_lift_return _ (frames [201; 1])) by reflexivity.
  apply _send_data_sent.
Qed.

Lemma control_buzzer_off self :
  control_buzzer (Some "off") self
  = (Return tt, sent (frames [201; 0]) self).
Proof.
  unfold control_buzzer.
  rewrite bind_assert_true by reflexivity.
  rewrite (bind_lift_return _ 201) by reflexivity.
  rewrite (bind_lift_return _ 0) by reflexivity.
  rewrite (bind_lift_return _ (frames [201; 0])) by reflexivity.
  apply _send_data_sent.
Qed.

Lemma control_buzzer_other state self :
  state <> Some "on" -> state <> Some "off" ->
  control_buzzer state self
  = (Raise (AssertionError "Buzzer state must be 'on' or 'off'"), self).
Proof.
  intros Hon Hoff. unfold control_buzzer.
  destruct state as [s|]; [|reflexivity].
  destruct (in_dict s miia_bit_buzzer_states) eqn:Hs; [|reflexivity].
  apply in_dict_buzzer_states in Hs. destruct Hs as [->| ->]; congruence.
Qed.

(** X6: control_buzzer, for every argument.  'on' makes the two writes
    201, 1 and 'off' the two writes 201, 0; any other argument, None
    included, fails the assertion and writes nothing. *)
Theorem control_buzzer_frame (state : option string) (self : MiiABit) :
  control_buzzer state self
  = (if decide (state = Some "on")
     then (Return tt, sent [[Byte.xc9]; [Byte.x01]] self)
     else if decide (state = Some "off")
     then (Return tt, sent [[Byte.xc9]; [Byte.x00]] self)
     else (Raise (AssertionError "Buzzer state must be 'on' or 'off'"), self))
  /\ wire (serial_connection (snd (control_buzzer state self)))
     = wire (serial_connection self)
       ++ (if decide (state = Some "on") then [201; 1]
           else if decide (state = Some "off") then [201; 0]
           else []).
Proof.
  destruct (decide (state = Some "on")) as [->|Hon].
  - rewrite control_buzzer_on. split; [reflexivity|].
    simpl snd. by rewrite wire_sent.
  - destruct (decide (state = Some "off")) as [->|Hoff].
    + rewrite control_buzzer_off. split; [reflexivity|].
      simpl snd. by rewrite wire_sent.
    + rewrite control_buzzer_other by assumption.
      split; [reflexivity|]. simpl. by rewrite app_nil_r.
Qed.

(** X7: control_servo_motor, for every argument.  A position in
    [0, 100] makes the two writes 208, position, the position going out
    as given; any other position fails the assertion and writes
    nothing. *)
Theorem control_servo_motor_frame (position : Z) (self : MiiABit) :
  control_servo_motor position self
  = (if decide (0 <= position <= 100)
     then (Return tt, sent [[Byte.xd0]; [byte_of_Z position]] self)
     else (Raise (AssertionError "Position must be in the range 0 - 100"),
           self))
  /\ wire (serial_connection (snd (control_servo_motor position self)))
     = wire (serial_connection self)
       ++ (if decide (0 <= position <= 100) then [208; position] else []).
Proof.
  assert (Hrun : control_servo_motor position self
    = if decide (0 <= position <= 100)
      then (Return tt, sent (frames [208; position]) self)
      else (Raise (AssertionError "Position must be in the range 0 - 100"),
            self)).
  { unfold control_servo_motor. case_decide as Hp.
    - rewrite bind_assert_true by (apply in_range_true; simpl; lia).
      rewrite (bind_lift_return _ _ _ _ opcode_servo).
      rewrite (bind_lift_return _ (frames [208; position])).
      + apply _send_data_sent.
      + apply _pack_data_array_ok. repeat constructor; lia.
    - destruct (in_range position miia_bit_servo_range) eqn:Hr; [|reflexivity].
      apply in_range_true in Hr. simpl in Hr. lia. }
  split; [exact Hrun|]. rewrite Hrun. case_decide as Hp; simpl snd.
  - rewrite wire_sent. f_equal.
    apply (wire_frames [208; position]). repeat constructor; lia.
  - by rewrite app_nil_r.
Qed.

(** ** Which exceptions a call can raise *)

(** X8: validation rejects nothing that is in range.  A call whose
    arguments all lie in their ranges and enumerations never raises an
    assertion error; whatever it raises comes from a later step. *)
Theorem valid_call_passes_validation (c : call) (self : MiiABit) :
  in_domain c ->
  forall msg, fst (run c self) <> Raise (AssertionError msg).
Proof.
  intros Hdom msg.
  assert (Hshape : is_control c = true -> frame_or_raise not_assertion (run c)).
  { destruct c as [motor direction speed|position|red green blue
                  |buzzer_state|motor factor]; simpl in *;
      [| | | |discriminate]; intros _.
    - destruct Hdom as (Hm & Hd & Hs). unfold control_motor.
      shape; try exact I; left;
        [by apply in_dict_directions
        |apply in_range_true; simpl; lia
        |by apply in_list_motors].
    - unfold control_servo_motor.
      shape; try exact I; left; apply in_range_true; simpl; lia.
    - unfold control_rgb_led.
      shape; try exact I; left; apply in_range_true; simpl; lia.
    - unfold control_buzzer.
      apply frame_or_raise_bind;
        [apply pure_raising_assert; left;
         destruct Hdom as [->| ->]; reflexivity|intros _].
      apply frame_or_raise_bind; [by apply pure_raising_getitem|intros op].
      apply frame_or_raise_bind;
        [apply pure_raising_lift; intros e;
         destruct Hdom as [->| ->]; discriminate|intros v].
      by apply frame_or_raise_pack_send. }
  destruct (is_control c) eqn:Hc.
  - destruct (Hshape eq_refl self) as [(e & He & Hr)|(data & _ & Hr)];
      rewrite Hr; simpl; [|discriminate].
    intros [= ->]. exact He.
  - destruct c as [| | | |motor factor]; try discriminate Hc.
    destruct Hdom as [Hm Hf]. simpl. unfold set_motor_calibration.
    rewrite bind_assert_true by (by apply in_list_motors).
    rewrite bind_assert_true by (apply in_range_true; simpl; lia).
    discriminate.
Qed.

Lemma valid_call_passes_validation_witness :
  fst (run (ControlMotor "a" "forward" 5) controller_cal_minus_10)
  <> Raise (AssertionError "Speed must be in the range 0 - 100").
Proof.
  apply (valid_call_passes_validation (ControlMotor "a" "forward" 5)
           controller_cal_minus_10).
  simpl. repeat split; (by left) || lia.
Defined.

Lemma control_motor_invalid self motor direction speed :
  ~ ((motor = "a" \/ motor = "b")
     /\ (direction = "forward" \/ direction = "reverse")
     /\ 0 <= speed <= 100) ->
  exists msg,
    control_motor motor direction speed self = (Raise (AssertionError msg), self).
Proof.
  intros Hbad. unfold control_motor.
  destruct (in_dict direction miia_bit_motor_directions) eqn:Hd;
    [rewrite bind_assert_true by reflexivity|reject].
  destruct (in_range speed miia_bit_motor_speed_range) eqn:Hs;
    [rewrite bind_assert_true by reflexivity|reject].
  destruct (in_list motor miia_bit_motors) eqn:Hm;
    [rewrite bind_assert_true by reflexivity|reject].
  exfalso. apply Hbad.
  apply in_dict_directions in Hd. apply in_list_motors in Hm.
  apply in_range_true in Hs. simpl in Hs. repeat split; (assumption || lia).
Qed.

Lemma set_motor_calibration_cases self motor factor :
  ((motor = "a" \/ motor = "b") /\ -50 <= factor <= 50
   /\ set_motor_calibration motor factor self
      = (Return tt,
         set_motor_cal_values (<[motor := factor]> (motor_cal_values self))
           self))
  \/ (exists msg,
        set_motor_calibration motor factor self
        = (Raise (AssertionError msg), self)).
Proof.
  unfold set_motor_calibration.
  destruct (in_list motor miia_bit_motors) eqn:Hm;
    [rewrite bind_assert_true by reflexivity|right; reject].
  destruct (in_range factor miia_bit_calibration_range) eqn:Hf;
    [rewrite bind_assert_true by reflexivity|right; reject].
  left. apply in_list_motors in Hm. apply in_range_true in Hf. simpl in Hf.
  repeat split; (assumption || lia).
Qed.

Ltac shape_packing :=
  repeat first
    [ apply frame_or_raise_pack_send; right; reflexivity
    | apply frame_or_raise_bind; [|intros ?]; cbv zeta
    | apply pure_raising_assert; right; left; eexists; reflexivity
    | apply pure_raising_lift;
      let e := fresh "e" in let He := fresh "He" in
      intros e He; vm_compute in He; discriminate He ].

(** X9: on a controller that has a factor stored for motor a and for
    motor b, a call raises nothing but a failed assertion or the packing
    error: no table lookup of the driver can miss its key. *)
Theorem keyed_controller_exceptions (c : call) (self : MiiABit) (e : exn) :
  is_Some (motor_cal_values self !! "a") ->
  is_Some (motor_cal_values self !! "b") ->
  fst (run c self) = Raise e ->
  assertion_or_packing e.
Proof.
  intros Ha Hb.
  assert (Hpack : forall data (st : MiiABit) e',
    fst (bind (lift (_pack_data_array data)) _send_data st) = Raise e' ->
    assertion_or_packing e').
  { intros data st e'.
    destruct (frame_or_raise_pack_send assertion_or_packing data
                (or_intror eq_refl) st)
      as [(e0 & He0 & Hr)|(d & _ & Hr)]; rewrite Hr; simpl;
      [by intros [= <-]|discriminate]. }
  destruct c as [motor direction speed|position|red green blue
                |buzzer_state|motor factor]; simpl.
  - destruct (decide ((motor = "a" \/ motor = "b")
                      /\ (direction = "forward" \/ direction = "reverse")
                      /\ 0 <= speed <= 100)) as [(Hm & Hd & Hs)|Hbad].
    + assert (Hcal : exists cal, motor_cal_values self !! motor = Some cal)
        by (destruct Hm as [->| ->]; assumption).
      destruct Hcal as [cal Hcal].
      rewrite (control_motor_validated self motor direction speed cal)
        by assumption.
      apply Hpack.
    + destruct (control_motor_invalid self motor direction speed Hbad)
        as [msg Hr].
      rewrite Hr. simpl. intros [= <-]. left. by exists msg.
  - assert (Hshape : frame_or_raise assertion_or_packing
                       (control_servo_motor position))
      by (unfold control_servo_motor; shape_packing).
    destruct (Hshape self) as [(e0 & He0 & Hr)|(d & _ & Hr)]; rewrite Hr;
      simpl; [by intros [= <-]|discriminate].
  - assert (Hshape : frame_or_raise assertion_or_packing
                       (control_rgb_led red green blue))
      by (unfold control_rgb_led; shape_packing).
    destruct (Hshape self) as [(e0 & He0 & Hr)|(d & _ & Hr)]; rewrite Hr;
      simpl; [by intros [= <-]|discriminate].
  - destruct (decide (buzzer_state = Some "on")) as [->|Hon];
      [rewrite control_buzzer_on; discriminate|].
    destruct (decide (buzzer_state = Some "off")) as [->|Hoff];
      [rewrite control_buzzer_off; discriminate|].
    rewrite control_buzzer_other by assumption.
    simpl. intros [= <-]. left. eexists. reflexivity.
  - destruct (set_motor_calibration_cases self motor factor)
      as [(_ & _ & Hr)|[msg Hr]]; rewrite Hr; simpl; [discriminate|].
    intros [= <-]. left. by exists msg.
Qed.

Lemma keyed_controller_exceptions_witness :
  fst (run (ControlMotor "a" "forward" 5) controller_cal_minus_10)
  = Raise (StructError "ubyte format requires 0 <= number <= 255")
  /\ assertion_or_packing
       (StructError "ubyte format requires 0 <= number <= 255").
Proof.
  split; [reflexivity|].
  apply (keyed_controller_exceptions (ControlMotor "a" "forward" 5)
           controller_cal_minus_10);
    [eexists; reflexivity|eexists; reflexivity|reflexivity].
Defined.

(** ** Calibration, then driving *)

(** X10: a factor stored by set_motor_calibration is the one the next
    control_motor of that motor adds to the speed, whatever was stored
    before; the other motor goes on with its own factor. *)
Theorem calibration_reaches_motor (self : MiiABit) motor factor direction speed :
  motor = "a" \/ motor = "b" ->
  -50 <= factor <= 50 ->
  direction = "forward" \/ direction = "reverse" ->
  0 <= speed <= 100 ->
  0 <= speed + factor ->
  wire (serial_connection
          (snd (control_motor motor direction speed
                  (snd (set_motor_calibration motor factor self)))))
  = wire (serial_connection self)
    ++ [motor_opcode motor; direction_value direction; speed + factor]
  /\ forall other cal,
       other = "a" \/ other = "b" -> other <> motor ->
       motor_cal_values self !! other = Some cal ->
       0 <= speed + cal <= 255 ->
       wire (serial_connection
               (snd (control_motor other direction speed
                       (snd (set_motor_calibration motor factor self)))))
       = wire (serial_connection self)
         ++ [motor_opcode other; direction_value direction; speed + cal].
Proof.
  intros Hm Hf Hd Hs Hsum.
  destruct (set_motor_calibration_cases self motor factor)
    as [(_ & _ & Hr)|[msg Hr]].
  2:{ exfalso. revert Hr. unfold set_motor_calibration.
      rewrite bind_assert_true by (by apply in_list_motors).
      rewrite bind_assert_true by (apply in_range_true; simpl; lia).
      discriminate. }
  rewrite Hr. simpl snd.
  assert (Hdrive : forall m cal,
    m = "a" \/ m = "b" ->
    <[motor := factor]> (motor_cal_values self) !! m = Some cal ->
    0 <= speed + cal <= 255 ->
    wire (serial_connection
            (snd (control_motor m direction speed
                    (set_motor_cal_values
                       (<[motor := factor]> (motor_cal_values self)) self))))
    = wire (serial_connection self)
      ++ [motor_opcode m; direction_value direction; speed + cal]).
  { intros m cal Hm' Hcal Hfit.
    rewrite (control_motor_sends _ m direction speed cal) by assumption.
    simpl snd. rewrite wire_sent. f_equal.
    apply (wire_frames [motor_opcode m; direction_value direction; speed + cal]).
    repeat constructor; try lia;
      (apply motor_opcode_byte || apply direction_value_byte). }
  split.
  - apply Hdrive; [assumption|apply lookup_insert_eq|lia].
  - intros other cal Ho Hne Hcal Hfit.
    apply Hdrive; [assumption| |assumption].
    rewrite lookup_insert_ne by congruence. exact Hcal.
Qed.

Lemma calibration_reaches_motor_witness :
  wire (serial_connection
          (snd (control_motor "b" "reverse" 60
                  (snd (set_motor_calibration "b" (-20) controller_cal_0)))))
  = [0; 203; 1; 40].
Proof.
  exact (proj1 (calibration_reaches_motor controller_cal_0 "b" (-20)
                  "reverse" 60 (or_intror eq_refl) ltac:(lia)
                  (or_intror eq_refl) ltac:(lia) ltac:(lia))).
Defined.

(** ** Sessions *)

Lemma get_data_from_sensors_keeps self :
  write_log (snd (get_data_from_sensors self)) = write_log self
  /\ motor_cal_values (snd (get_data_from_sensors self)) = motor_cal_values self.
Proof.
  unfold get_data_from_sensors, _receive_data, bind, serial_read, Serial_read.
  unfold lift. simpl.
  destruct (struct_unpack_6B _) as [rcvd|e]; simpl; [|by split].
  destruct (tuple_getitem rcvd 1) as [button|e]; simpl; [|by split].
  destruct (tuple_getitem rcvd 4) as [distance|e]; simpl; by split.
Qed.

Lemma serve_log r self :
  exists data,
    Forall fits_byte data
    /\ write_log (snd (serve r self)) = write_log self ++ frames data.
Proof.
  assert (Hnone : forall st st' : MiiABit,
            write_log st' = write_log st ->
            exists data, Forall fits_byte data
                         /\ write_log st' = write_log st ++ frames data).
  { intros st st' Heq. exists []. split; [constructor|].
    simpl. by rewrite app_nil_r. }
  destruct r as [c|]; simpl.
  - destruct (is_control c) eqn:Hc.
    + destruct (control_frame_or_nothing c Hc self)
        as [(e & _ & Hr)|(data & Hall & Hr)]; rewrite Hr; simpl snd.
      * by apply Hnone.
      * exists data. by split.
    + destruct c as [| | | |motor factor]; try discriminate Hc. simpl.
      destruct (set_motor_calibration_cases self motor factor)
        as [(_ & _ & Hr)|[msg Hr]]; rewrite Hr; by apply Hnone.
  - apply Hnone. apply get_data_from_sensors_keeps.
Qed.

Lemma serve_calibrated r self :
  calibrated self -> calibrated (snd (serve r self)).
Proof.
  intros Hcal.
  assert (Hsame : forall st' : MiiABit,
            motor_cal_values st' = motor_cal_values self -> calibrated st').
  { intros st' Heq motor Hm. rewrite Heq. by apply Hcal. }
  destruct r as [c|]; simpl.
  - destruct (is_control c) eqn:Hc.
    + destruct (control_frame_or_nothing c Hc self)
        as [(e & _ & Hr)|(data & Hall & Hr)]; rewrite Hr; by apply Hsame.
    + destruct c as [| | | |motor factor]; try discriminate Hc. simpl.
      destruct (set_motor_calibration_cases self motor factor)
        as [(Hm & Hf & Hr)|[msg Hr]]; rewrite Hr; [|by apply Hsame].
      intros m Hm'. simpl.
      destruct (decide (m = motor)) as [->|Hne].
      * exists factor. split; [apply lookup_insert_eq|exact Hf].
      * rewrite lookup_insert_ne by congruence. by apply Hcal.
  - apply Hsame. apply get_data_from_sensors_keeps.
Qed.

Lemma session_log rs : forall self,
  exists data,
    Forall fits_byte data
    /\ write_log (session rs self) = write_log self ++ frames data.
Proof.
  induction rs as [|r rs IH]; intros self; simpl.
  - exists []. split; [constructor|]. simpl. by rewrite app_nil_r.
  - destruct (serve_log r self) as (d1 & H1 & Hlog1).
    destruct (IH (snd (serve r self))) as (d2 & H2 & Hlog2).
    exists (d1 ++ d2). split; [by apply Forall_app|].
    rewrite Hlog2, Hlog1. unfold frames. by rewrite map_app, app_assoc.
Qed.

Lemma session_calibrated rs : forall self,
  calibrated self -> calibrated (session rs self).
Proof.
  induction rs as [|r rs IH]; intros self Hcal; simpl; [exact Hcal|].
  apply IH. by apply serve_calibrated.
Qed.

(** X11: what holds of a controller throughout its life.  Built with
    factors in [-50, 50] and then used for any sequence of calls, valid
    or not, failing or not, it keeps a factor in [-50, 50] for each
    motor; its log of writes is the handshake followed by single-byte
    writes only, so the wire carries 0 and then integers of [0, 255]. *)
Theorem session_invariants cal_a cal_b (incoming : bytes) (rs : list request) :
  -50 <= cal_a <= 50 ->
  -50 <= cal_b <= 50 ->
  calibrated (session rs (fresh cal_a cal_b incoming))
  /\ Forall (fun item => length item = 1%nat)
       (write_log (session rs (fresh cal_a cal_b incoming)))
  /\ exists data,
       Forall fits_byte data
       /\ write_log (session rs (fresh cal_a cal_b incoming))
          = [Byte.x00] :: frames data
       /\ wire (serial_connection (session rs (fresh cal_a cal_b incoming)))
          = 0 :: data.
Proof.
  intros Ha Hb.
  destruct (session_log rs (fresh cal_a cal_b incoming)) as (data & Hall & Hlog).
  change (write_log (fresh cal_a cal_b incoming)) with [[Byte.x00]] in Hlog.
  split; [|split].
  - apply session_calibrated. intros motor [->| ->].
    + exists cal_a. by split.
    + exists cal_b. by split.
  - rewrite Hlog. apply Forall_app. split; [by repeat constructor|].
    apply frames_single.
  - exists data. split; [exact Hall|]. split; [exact Hlog|].
    unfold wire. unfold write_log in Hlog. rewrite Hlog. simpl.
    f_equal. by apply wire_frames.
Qed.

Lemma session_invariants_witness :
  calibrated
    (session [Command (SetMotorCalibration "a" 50);
              Command (ControlMotor "a" "forward" 100);
              ReadSensors;
              Command (SetMotorCalibration "b" 51)]
       (fresh 0 (-50) []))
  /\ wire (serial_connection
             (session [Command (SetMotorCalibration "a" 50);
                       Command (ControlMotor "a" "forward" 100);
                       ReadSensors;
                       Command (SetMotorCalibration "b" 51)]
                (fresh 0 (-50) [])))
     = [0; 202; 0; 150].
Proof.
  split.
  - apply (session_invariants 0 (-50) []); lia.
  - reflexivity.
Defined.

(** ** The opcode table *)

Lemma opcode_entries k op :
  miia_bit_opcodes !! k = Some op ->
  In (k, op)
    [("buzzer", 201); ("motor_a", 202); ("motor_b", 203); ("rgb_led_r", 204);
     ("rgb_led_g", 205); ("rgb_led_b", 206); ("servo", 208)].
Proof.
  unfold miia_bit_opcodes. intros H.
  repeat (rewrite lookup_insert in H; case_decide;
          [subst k; injection H as <-; simpl; tauto|]).
  rewrite lookup_empty in H. discriminate.
Qed.

(** X12: the opcode table gives every command its own opcode.  Two
    names with the same opcode are the same name, and every opcode lies
    in [201, 208]: above every validated data value and within one
    byte. *)
Theorem opcodes_distinct (k1 k2 : string) (op1 op2 : Z) :
  miia_bit_opcodes !! k1 = Some op1 ->
  miia_bit_opcodes !! k2 = Some op2 ->
  (op1 = op2 -> k1 = k2)
  /\ 201 <= op1 <= 208
  /\ struct_pack_1B op1 = Return [byte_of_Z op1].
Proof.
  intros H1 H2.
  apply opcode_entries in H1. apply opcode_entries in H2.
  assert (Hrange : 201 <= op1 <= 208).
  { simpl in H1.
    repeat (destruct H1 as [[= <- <-]|H1]; [lia|]). contradiction. }
  split; [|split; [exact Hrange|apply struct_pack_1B_ok; lia]].
  intros <-. simpl in H1, H2.
  repeat (destruct H1 as [H1|H1];
          [repeat (destruct H2 as [H2|H2]; [congruence|]); contradiction|]).
  contradiction.
Qed.

Lemma opcodes_distinct_witness :
  ("motor_a" = "motor_b" -> False) /\ 201 <= 202 <= 208.
Proof.
  destruct (opcodes_distinct "motor_a" "motor_b" 202 203 eq_refl eq_refl)
    as (_ & Hrange & _).
  split; [discriminate|exact Hrange].
Defined.

(** ** The constructor *)



(** ** Reading the sensors, in general *)

Lemma _receive_data_short (self : MiiABit) :
  (length (rx (serial_connection self)) < 6)%nat ->
  _receive_data self
  = (Raise (StructError "unpack requires a buffer of 6 bytes"),
     set_serial (snd (Serial_read 6 (serial_connection self))) self).
Proof.
  intros Hshort.
  unfold _receive_data, bind, serial_read, Serial_read, lift, struct_unpack_6B.
  rewrite length_take.
  replace (6 `min` length (rx (serial_connection self)) =? 6)%nat with false
    by (symmetry; apply Nat.eqb_neq; lia).
  reflexivity.
Qed.

Lemma six_or_more {A} (l : list A) :
  (6 <= length l)%nat ->
  exists x0 x1 x2 x3 x4 x5 rest, l = x0 :: x1 :: x2 :: x3 :: x4 :: x5 :: rest.
Proof.
  intros Hlen.
  destruct l as [|x0 [|x1 [|x2 [|x3 [|x4 [|x5 rest]]]]]]; simpl in Hlen;
    try lia.
  by exists x0, x1, x2, x3, x4, x5, rest.
Qed.

(** X14: get_data_from_sensors returns exactly when six bytes or more
    are waiting.  It then leaves both readings set to values of
    [0, 255] and the receive buffer six bytes shorter; otherwise it
    raises the unpacking error and nothing else, whatever the bytes. *)
Theorem get_data_from_sensors_returns_iff (self : MiiABit) :
  (fst (get_data_from_sensors self) = Return tt
   <-> (6 <= length (rx (serial_connection self)))%nat)
  /\ (fst (get_data_from_sensors self) = Return tt ->
      exists button distance,
        input_button_state (snd (get_data_from_sensors self)) = Some button
        /\ distance_sensor (snd (get_data_from_sensors self)) = Some distance
        /\ fits_byte button /\ fits_byte distance
        /\ rx (serial_connection (snd (get_data_from_sensors self)))
           = drop 6 (rx (serial_connection self)))
  /\ (forall e, fst (get_data_from_sensors self) = Raise e ->
      e = StructError "unpack requires a buffer of 6 bytes").
Proof.
  unfold get_data_from_sensors.
  destruct (decide (6 <= length (rx (serial_connection self)))%nat)
    as [Hlen|Hshort].
  - destruct (six_or_more _ Hlen) as (b0 & b1 & b2 & b3 & b4 & b5 & rest & Hrx).
    rewrite (_receive_data_frame self b0 b1 b2 b3 b4 b5 rest Hrx). simpl.
    split; [tauto|]. split; [|discriminate].
    intros _. exists (Z_of_byte b1), (Z_of_byte b4).
    rewrite Hrx. repeat split; apply Z_of_byte_range.
  - rewrite _receive_data_short by lia. simpl.
    split; [split; [discriminate|contradiction]|].
    split; [discriminate|]. by intros e [= <-].
Qed.

Lemma get_data_from_sensors_returns_iff_witness :
  fst (get_data_from_sensors (fresh 0 0 telemetry_example)) = Return tt
  /\ exists button distance,
       input_button_state
         (snd (get_data_from_sensors (fresh 0 0 telemetry_example)))
       = Some button
       /\ distance_sensor
            (snd (get_data_from_sensors (fresh 0 0 telemetry_example)))
          = Some distance
       /\ fits_byte button /\ fits_byte distance.
Proof.
  destruct (get_data_from_sensors_returns_iff (fresh 0 0 telemetry_example))
    as (Hiff & Hset & _).
  assert (Hret : fst (get_data_from_sensors (fresh 0 0 telemetry_example))
                 = Return tt) by (apply Hiff; simpl; lia).
  split; [exact Hret|].
  destruct (Hset Hret) as (button & distance & Hb & Hd & Hfb & Hfd & _).
  exists button, distance. exact (conj Hb (conj Hd (conj Hfb Hfd))).
Defined.

(** X15: frames are read one after the other.  With two frames waiting,
    two calls of get_data_from_sensors both return; after the second the
    readings are bytes 1 and 4 of the second frame, the first frame's
    readings being overwritten, and the receive buffer holds what came
    after the two frames. *)
Theorem consecutive_frames (self : MiiABit) (frame1 frame2 rest : bytes) :
  length frame1 = 6%nat ->
  length frame2 = 6%nat ->
  rx (serial_connection self) = frame1 ++ frame2 ++ rest ->
  fst (get_data_from_sensors self) = Return tt
  /\ input_button_state (snd (get_data_from_sensors self))
     = map Z_of_byte frame1 !! 1%nat
  /\ fst (get_data_from_sensors (snd (get_data_from_sensors self))) = Return tt
  /\ input_button_state
       (snd (get_data_from_sensors (snd (get_data_from_sensors self))))
     = map Z_of_byte frame2 !! 1%nat
  /\ distance_sensor
       (snd (get_data_from_sensors (snd (get_data_from_sensors self))))
     = map Z_of_byte frame2 !! 4%nat
  /\ rx (serial_connection
           (snd (get_data_from_sensors (snd (get_data_from_sensors self)))))
     = rest.
Proof.
  intros H1 H2 Hrx.
  destruct frame1 as [|a0 [|a1 [|a2 [|a3 [|a4 [|a5 [|a6 frame1]]]]]]];
    try discriminate H1.
  destruct frame2 as [|b0 [|b1 [|b2 [|b3 [|b4 [|b5 [|b6 frame2]]]]]]];
    try discriminate H2.
  simpl in Hrx. unfold get_data_from_sensors.
  rewrite (_receive_data_frame self a0 a1 a2 a3 a4 a5 _ Hrx). simpl snd.
  rewrite (_receive_data_frame _ b0 b1 b2 b3 b4 b5 rest)
    by (simpl; by rewrite Hrx).
  simpl. rewrite Hrx. repeat split; reflexivity.
Qed.

Lemma consecutive_frames_witness :
  distance_sensor
    (snd (get_data_from_sensors
            (snd (get_data_from_sensors
                    (fresh 0 0 (telemetry_bad_markers ++ telemetry_example))))))
  = Some 37.
Proof.
  destruct (consecutive_frames
              (fresh 0 0 (telemetry_bad_markers ++ telemetry_example))
              telemetry_bad_markers telemetry_example []
              eq_refl eq_refl eq_refl)
    as (_ & _ & _ & _ & Hd & _).
  exact Hd.
Defined.

(** ** The order of the checks *)

(** X16: the assertions run in the order they are written, and the first
    that fails names the error.  control_motor checks the direction,
    then the speed, then the motor; set_motor_calibration checks the
    motor, then the factor.  A bad direction is reported even when the
    speed and the motor are bad too. *)
Theorem validation_order (self : MiiABit) motor direction speed factor :
  (~ (direction = "forward" \/ direction = "reverse") ->
   control_motor motor direction speed self
   = (Raise (AssertionError "Direction must be either 'forward' or 'reverse"),
      self))
  /\ (direction = "forward" \/ direction = "reverse" ->
      ~ 0 <= speed <= 100 ->
      control_motor motor direction speed self
      = (Raise (AssertionError "Speed must be in the range 0 - 100"), self))
  /\ (direction = "forward" \/ direction = "reverse" ->
      0 <= speed <= 100 ->
      ~ (motor = "a" \/ motor = "b") ->
      control_motor motor direction speed self
      = (Raise (AssertionError "Select either motor a or b"), self))
  /\ (~ (motor = "a" \/ motor = "b") ->
      set_motor_calibration motor factor self
      = (Raise (AssertionError "Select either motor a or b"), self))
  /\ (motor = "a" \/ motor = "b" ->
      ~ -50 <= factor <= 50 ->
      set_motor_calibration motor factor self
      = (Raise (AssertionError
                  "Calibration factor must be in the range -50 to 50"), self)).
Proof.
  assert (Hdir : forall b, in_dict direction miia_bit_motor_directions = b ->
            (b = true <-> direction = "forward" \/ direction = "reverse"))
    by (intros b <-; apply in_dict_directions).
  assert (Hmot : forall b, in_list motor miia_bit_motors = b ->
            (b = true <-> motor = "a" \/ motor = "b"))
    by (intros b <-; apply in_list_motors).
  assert (Hspeed : forall b, in_range speed miia_bit_motor_speed_range = b ->
            (b = true <-> 0 <= speed <= 100)).
  { intros b <-. rewrite in_range_true. simpl. lia. }
  assert (Hfac : forall b, in_range factor miia_bit_calibration_range = b ->
            (b = true <-> -50 <= factor <= 50)).
  { intros b <-. rewrite in_range_true. simpl. lia. }
  unfold control_motor, set_motor_calibration.
  destruct (in_dict direction miia_bit_motor_directions) eqn:Ed;
    destruct (in_range speed miia_bit_motor_speed_range) eqn:Es;
    destruct (in_list motor miia_bit_motors) eqn:Em;
    destruct (in_range factor miia_bit_calibration_range) eqn:Ef;
    specialize (Hdir _ eq_refl); specialize (Hmot _ eq_refl);
    specialize (Hspeed _ eq_refl); specialize (Hfac _ eq_refl);
    repeat split; intros; try reflexivity; exfalso;
    repeat match goal with
           | H : ?b = true <-> ?Q, HQ : ?Q |- _ =>
               apply H in HQ; discriminate HQ
           | H : true = true <-> ?Q, HQ : ~ ?Q |- _ =>
               apply HQ, H; reflexivity
           end.
Qed.

Lemma validation_order_witness :
  control_motor "c" "up" 101 controller_cal_0
  = (Raise (AssertionError "Direction must be either 'forward' or 'reverse"),
     controller_cal_0)
  /\ set_motor_calibration "a" 51 controller_cal_0
     = (Raise (AssertionError
                 "Calibration factor must be in the range -50 to 50"),
        controller_cal_0).
Proof.
  destruct (validation_order controller_cal_0 "c" "up" 101 0)
    as (Hdir & _).
  destruct (validation_order controller_cal_0 "a" "forward" 0 51)
    as (_ & _ & _ & _ & Hfac).
  split.
  - apply Hdir. intros [H|H]; discriminate H.
  - apply Hfac; [by left|lia].
Defined.
